(** * terraform-provider-onepassword: the item layer

    A shallow embedding of [onepassword/item.go],
    [onepassword/resource_item_identity.go] and
    [onepassword/resource_item_document.go], and the properties of the
    category registry, the section/field codec and the item operations.

    Conventions.
    - Go [string] is [string]; [[]byte] is [list byte]; [int] is [Z].
    - Go [interface{}] values are the inductive [value]; a Go
      [map[string]interface{}] is a [gmap string value].
    - [*schema.ResourceData] is the record [ResourceData], threaded
      explicitly; the external binary is an oracle over the history of
      invocations, threaded explicitly as well.
    - A runtime panic (failed type assertion, index out of range, nil
      dereference) is the [None] of an [option] result. *)

From Stdlib Require Import ZArith String List Ascii Bool Lia.
From Stdlib.Strings Require Import Byte.
From stdpp Require Import gmap strings list fin_maps.

#[local] Set Warnings "-register-all".
#[local] Open Scope string_scope.

(* ===================================================================== *)
(** ** Constants and data model (item.go, lines 16-138)                   *)
(* ===================================================================== *)

Definition ItemResource : string := "item".
Definition DocumentResource : string := "document".
Definition Stdin : string := "-".

(** [type SectionFieldType string], [type Category string]. *)
Definition SectionFieldType : Type := string.
Definition Category : Type := string.

Definition LoginCategory : Category := "Login".
Definition IdentityCategory : Category := "Identity".
Definition DatabaseCategory : Category := "Database".
Definition MembershipCategory : Category := "Membership".
Definition WirelessRouterCategory : Category := "Wireless Router".
Definition SecureNoteCategory : Category := "Secure Note".
Definition SoftwareLicenseCategory : Category := "Software License".
Definition CreditCardCategory : Category := "Credit Card".
Definition DriverLicenseCategory : Category := "Driver License".
Definition OutdoorLicenseCategory : Category := "Outdoor License".
Definition PassportCategory : Category := "Passport".
Definition EmailAccountCategory : Category := "Email Account".
Definition PasswordCategory : Category := "Password".
Definition RewardProgramCategory : Category := "Reward Program".
Definition SocialSecurityNumberCategory : Category := "Social Security Number".
Definition BankAccountCategory : Category := "Bank Account".
Definition DocumentCategory : Category := "Document".
Definition ServerCategory : Category := "Server".
Definition UnknownCategory : Category := "UNKNOWN".

Definition TypeSex : SectionFieldType := "menu".
Definition TypeCard : SectionFieldType := "cctype".
Definition TypeAddress : SectionFieldType := "address".
Definition TypeString : SectionFieldType := "string".
Definition TypeURL : SectionFieldType := "URL".
Definition TypeEmail : SectionFieldType := "email".
Definition TypeDate : SectionFieldType := "date".
Definition TypeMonthYear : SectionFieldType := "monthYear".
Definition TypeConcealed : SectionFieldType := "concealed".
Definition TypePhone : SectionFieldType := "phone".
Definition TypeReference : SectionFieldType := "reference".

Definition IsTrashed : string := "Y".

(** Go [interface{}] values that flow through the codec. *)
Inductive value : Type :=
| VNil
| VStr (s : string)
| VInt (z : Z)
| VBool (b : bool)
| VList (l : list value)
| VMap (m : gmap string value).

Record Annotation := {
  generate : string;
  guarded : string;
  multiline : string;
  clipboardFilter : string }.

Record SectionField := {
  Type_ : SectionFieldType;
  Text : string;
  Value : value;
  N_ : string;
  A_ : Annotation;
  Inputs : gmap string string }.

Record Section := {
  SName : string;
  STitle : string;
  SFields : list SectionField }.

Record SectionGroup := {
  Selector : string;
  GName : string;
  GFields : gmap string string }.

Record DocumentAttributes := { FileName : string }.

Record Overview := {
  OTitle : string;
  URL : string;
  Tags : list string }.

(** The legacy flat fields ([Details.Fields]) are carried but never
    inspected by the code under study. *)
Record Field := {
  FType : string;
  Designation : string;
  FName : string;
  FValue : string }.

Record Details := {
  Notes : string;
  Password : string;
  Fields : list Field;
  Sections : list Section;
  DocumentAttributes_ : option DocumentAttributes }.

Record Item := {
  UUID : string;
  Template : string;
  Vault : string;
  Overview_ : Overview;
  Details_ : Details;
  Trashed : string }.

Definition set_UUID (id : string) (v : Item) : Item :=
  {| UUID := id; Template := Template v; Vault := Vault v;
     Overview_ := Overview_ v; Details_ := Details_ v; Trashed := Trashed v |}.

(* ===================================================================== *)
(** ** Category/template registry (item.go, lines 172-256)                *)
(* ===================================================================== *)

Definition Category2Template (c : Category) : string :=
  if c =? LoginCategory then "001"
  else if c =? IdentityCategory then "004"
  else if c =? PasswordCategory then "005"
  else if c =? PassportCategory then "106"
  else if c =? DatabaseCategory then "102"
  else if c =? ServerCategory then "010"
  else if c =? DriverLicenseCategory then "103"
  else if c =? OutdoorLicenseCategory then "104"
  else if c =? SoftwareLicenseCategory then "100"
  else if c =? EmailAccountCategory then "111"
  else if c =? RewardProgramCategory then "107"
  else if c =? WirelessRouterCategory then "109"
  else if c =? DocumentCategory then "006"
  else if c =? BankAccountCategory then "101"
  else if c =? SocialSecurityNumberCategory then "108"
  else if c =? CreditCardCategory then "002"
  else if c =? SecureNoteCategory then "003"
  else if c =? MembershipCategory then "105"
  else "000".

Definition Template2Category (t : string) : Category :=
  if t =? "001" then LoginCategory
  else if t =? "004" then IdentityCategory
  else if t =? "005" then PasswordCategory
  else if t =? "106" then PassportCategory
  else if t =? "102" then DatabaseCategory
  else if t =? "010" then ServerCategory
  else if t =? "103" then DriverLicenseCategory
  else if t =? "104" then OutdoorLicenseCategory
  else if t =? "100" then SoftwareLicenseCategory
  else if t =? "111" then EmailAccountCategory
  else if t =? "107" then RewardProgramCategory
  else if t =? "109" then WirelessRouterCategory
  else if t =? "006" then DocumentCategory
  else if t =? "101" then BankAccountCategory
  else if t =? "108" then SocialSecurityNumberCategory
  else if t =? "002" then CreditCardCategory
  else if t =? "003" then SecureNoteCategory
  else if t =? "105" then MembershipCategory
  else UnknownCategory.

(** The fixed table: the eighteen categories the two switches name, and
    the template identifiers bound to them. *)
Definition registry : list Category :=
  [ LoginCategory; IdentityCategory; PasswordCategory; PassportCategory;
    DatabaseCategory; ServerCategory; DriverLicenseCategory;
    OutdoorLicenseCategory; SoftwareLicenseCategory; EmailAccountCategory;
    RewardProgramCategory; WirelessRouterCategory; DocumentCategory;
    BankAccountCategory; SocialSecurityNumberCategory; CreditCardCategory;
    SecureNoteCategory; MembershipCategory ].

Definition templates : list string :=
  [ "001"; "004"; "005"; "106"; "102"; "010"; "103"; "104"; "100"; "111";
    "107"; "109"; "006"; "101"; "108"; "002"; "003"; "105" ].

(* ===================================================================== *)
(** ** Errors, the hosting framework and the external binary              *)
(* ===================================================================== *)

(** Go [error] values.  [ExitError] is [*exec.ExitError] with its
    [ExitCode()]; [ErrNew] is [errors.New]; [ErrExternal] stands for any
    error produced by a library outside the repository (JSON decoding,
    the schema engine, a process that could not be started). *)
Inductive error : Type :=
| ExitError (code : Z)
| ErrNew (msg : string)
| ErrExternal (msg : string)
| PrettyError (args : list string) (res : list byte) (err : error).

(** Modelled from the spec: [prettyError] is not among the available
    sources; the spec has it return "a structured error carrying: exit
    code, raw output text, and the attempted argument vector". *)
Definition prettyError (args : list string) (res : list byte) (err : error) : error :=
  PrettyError args res err.

(** [diag.Diagnostics]: [nil] is the empty list, [diag.FromErr err] a
    one-element list. *)
Definition Diagnostics : Type := list error.
Definition diag_FromErr (err : error) : Diagnostics := [err].

(** [*schema.ResourceData]: the resource id and the attribute store. *)
Record ResourceData := {
  Id : string;
  attrs : gmap string value }.

Definition SetId (id : string) (d : ResourceData) : ResourceData :=
  {| Id := id; attrs := attrs d |}.

(** What the code needs from the hosting framework and from the helper
    functions of the repository that are not among the available sources
    ([getID], [ParseTags], [ParseFields], [ParseSections]).
    [schemaCheck k v] is the schema engine's verdict on [d.Set(k, v)]:
    [None] when the value fits the attribute. *)
Class Framework := {
  schemaCheck : string -> value -> option error;
  getID : ResourceData -> string;
  ParseTags : ResourceData -> list string;
  ParseFields : gmap string value -> list SectionField;
  ParseSections : ResourceData -> list Section }.

(** [d.Set(k, v)]: the returned error and the record afterwards. *)
Definition d_Set `{Framework} (d : ResourceData) (k : string) (v : value)
  : option error * ResourceData :=
  match schemaCheck k v with
  | Some err => (Some err, d)
  | None => (None, {| Id := Id d; attrs := <[k := v]> (attrs d) |})
  end.

(** [d.Get(k).(string)]: the zero value when the attribute is unset, a
    panic when it holds something that is not a string. *)
Definition d_GetString (d : ResourceData) (k : string) : option string :=
  match attrs d !! k with
  | None => Some ""
  | Some (VStr s) => Some s
  | Some _ => None
  end.

(** [d.Get(k).([]interface{})[0].(map[string]interface{})]. *)
Definition d_GetGroup (d : ResourceData) (k : string) : option (gmap string value) :=
  match attrs d !! k with
  | Some (VList (VMap m :: _)) => Some m
  | _ => None
  end.

(** [m[k].(string)], [m[k].(int)], [m[k].(map[string]interface{})]. *)
Definition asString (m : gmap string value) (k : string) : option string :=
  match m !! k with Some (VStr s) => Some s | _ => None end.
Definition asInt (m : gmap string value) (k : string) : option Z :=
  match m !! k with Some (VInt z) => Some z | _ => None end.
Definition asMap (m : gmap string value) (k : string) : option (gmap string value) :=
  match m !! k with Some (VMap a) => Some a | _ => None end.

(** One run of the external binary: what is piped to its standard input
    (if anything) and its argument vector. *)
Record Invocation := {
  stdin : option (list byte);
  argv : list string }.

(** The external binary answers an invocation with its output and an
    error; the answer may depend on everything that was run before.
    The JSON codec and [getResultID] (not among the available sources)
    are taken as given. *)
Class Client := {
  op : list Invocation -> Invocation -> list byte * option error;
  json_Unmarshal : list byte -> error + Item;
  json_Marshal : Details -> error + list byte;
  getResultID : list byte -> error + string }.

(** Modelled from the spec: [opPasswordGet], [opPasswordCreate] and the
    Process Runner ([RunSimpleCmd], [RunStdinCmd]) are not among the
    available sources; the spec has the argument vector begin with the
    verb [get] or [create], and the runner spawn the binary once with the
    given arguments, writing the supplied bytes to its input stream. *)
Definition opPasswordGet : string := "get".
Definition opPasswordCreate : string := "create".

Definition RunSimpleCmd `{Client} (args : list string) (w : list Invocation)
  : (list byte * option error) * list Invocation :=
  let i := {| stdin := None; argv := args |} in (op w i, (w ++ [i])%list).

Definition RunStdinCmd `{Client} (content : list byte) (args : list string)
  (w : list Invocation) : (list byte * option error) * list Invocation :=
  let i := {| stdin := Some content; argv := args |} in (op w i, (w ++ [i])%list).

(* ===================================================================== *)
(** ** Strings and base64                                                 *)
(* ===================================================================== *)

(** [strings.HasPrefix(s, prefix)] and [strings.Contains(s, substr)]. *)
Definition HasPrefix (s pre : string) : bool := String.prefix pre s.

Fixpoint Contains (s substr : string) : bool :=
  String.prefix substr s ||
  match s with
  | EmptyString => false
  | String _ s' => Contains s' substr
  end.

(** [strings.Join(elems, sep)]. *)
Definition Join (elems : list string) (sep : string) : string :=
  String.concat sep elems.

(** [encoding/base64] (RFC 4648): three bytes become four characters of
    the alphabet; a final group of one or two bytes becomes two or three
    characters, padded with [=] when the encoding pads. *)
Definition encodeStd : string :=
  "ABCDEFGHIJKLMNOPQRSTUVWXYZabcdefghijklmnopqrstuvwxyz0123456789+/".
Definition encodeURL : string :=
  "ABCDEFGHIJKLMNOPQRSTUVWXYZabcdefghijklmnopqrstuvwxyz0123456789-_".

Definition b64char (alphabet : string) (n : N) : ascii :=
  match String.get (N.to_nat n) alphabet with
  | Some c => c
  | None => "="%char
  end.

Fixpoint b64encode (alphabet : string) (pad : bool) (src : list byte) : string :=
  let ch := b64char alphabet in
  match src with
  | [] => ""
  | [a] =>
      let x := Byte.to_N a in
      String (ch (x / 4)) (String (ch ((x mod 4) * 16))
        (if pad then "==" else ""))
  | [a; b] =>
      let x := Byte.to_N a in
      let y := Byte.to_N b in
      String (ch (x / 4)) (String (ch ((x mod 4) * 16 + y / 16))
        (String (ch ((y mod 16) * 4)) (if pad then "=" else "")))
  | a :: b :: c :: rest =>
      let x := Byte.to_N a in
      let y := Byte.to_N b in
      let z := Byte.to_N c in
      String (ch (x / 4)) (String (ch ((x mod 4) * 16 + y / 16))
        (String (ch ((y mod 16) * 4 + z / 64)) (String (ch (z mod 64))
          (b64encode alphabet pad rest))))
  end%N.

(** [b64.StdEncoding.EncodeToString]. *)
Definition StdEncoding_EncodeToString (src : list byte) : string :=
  b64encode encodeStd true src.

(** [base64url.Encode]: the URL-safe alphabet, no padding. *)
Definition base64url_Encode (src : list byte) : string :=
  b64encode encodeURL false src.

(* ===================================================================== *)
(** ** Item operations (item.go, lines 140-336)                           *)
(* ===================================================================== *)

Definition itemNotFound (res : string) (err : error) : bool :=
  match err with
  | ExitError code =>
      ((code =? 1)%Z && Contains res "isn't an item in") ||
      ((code =? 4)%Z && Contains res "The requested resource was not found")
  | _ => false
  end.

(** The argument vector of [ReadItem]. *)
Definition ReadItem_args (id vaultID : string) : list string :=
  ([opPasswordGet; ItemResource; id] ++
   (if vaultID =? "" then [] else ["--vault=" +:+ vaultID]))%list.

(** The result pair is the returned item pointer (nil as [None]) and the error. *)
Definition ReadItem `{Client} (id vaultID : string) (w : list Invocation)
  : (option Item * option error) * list Invocation :=
  let args := ReadItem_args id vaultID in
  let '((res, err), w) := RunSimpleCmd args w in
  match err with
  | Some err =>
      if itemNotFound (string_of_list_byte res) err then ((None, None), w)
      else ((None, Some (prettyError args res err)), w)
  | None =>
      match json_Unmarshal res with
      | inl err => ((None, Some err), w)
      | inr item => ((Some item, None), w)
      end
  end.

(** The argument vector of [CreateItem]: the [args] literal and the four
    conditional appends. *)
Definition CreateItem_args (v : Item) (template : Category) (detailsHash : string)
  : list string :=
  ([opPasswordCreate; ItemResource; template; detailsHash] ++
   (if Vault v =? "" then [] else ["--vault=" +:+ Vault v]) ++
   (if OTitle (Overview_ v) =? "" then []
    else ["--title=" +:+ OTitle (Overview_ v)]) ++
   (if URL (Overview_ v) =? "" then []
    else ["--url=" +:+ URL (Overview_ v)]) ++
   (match Tags (Overview_ v) with
    | [] => []
    | _ => ["--tags=" +:+ Join (Tags (Overview_ v)) ","]
    end))%list.

(** The item is passed by pointer and its [UUID] assigned in place: the
    item afterwards is returned next to the error.  In
    [if id, err := getResultID(res); err == nil { v.UUID = id }; return err]
    the [err] of the [if] is a new variable; the returned one is the
    outer [err], which is nil on this branch. *)
Definition CreateItem `{Client} (v : Item) (w : list Invocation)
  : (option error * Item) * list Invocation :=
  match json_Marshal (Details_ v) with
  | inl err => ((Some err, v), w)
  | inr details =>
      let detailsHash := base64url_Encode details in
      let template := Template2Category (Template v) in
      if template =? UnknownCategory
      then ((Some (ErrNew ("unknown template id " +:+ Template v)), v), w)
      else
        let args := CreateItem_args v template detailsHash in
        let '((res, err), w) := RunSimpleCmd args w in
        match err with
        | None =>
            match getResultID res with
            | inr id => ((None, set_UUID id v), w)
            | inl _ => ((None, v), w)
            end
        | Some err => ((Some (prettyError args res err), v), w)
        end
  end.

Definition ReadDocument `{Client} (id : string) (w : list Invocation)
  : (list byte * option error) * list Invocation :=
  let args := [opPasswordGet; DocumentResource; id] in
  let '((content, err), w) := RunSimpleCmd args w in
  match err with
  | Some err => ((content, Some (prettyError args content err)), w)
  | None => ((content, None), w)
  end.

(** The argument vector of [CreateDocument]. *)
Definition CreateDocument_args (v : Item) (da : DocumentAttributes) : list string :=
  ([opPasswordCreate; DocumentResource; Stdin;
    "--title=" +:+ OTitle (Overview_ v);
    "--filename=" +:+ FileName da] ++
   (match Tags (Overview_ v) with
    | [] => []
    | _ => ["--tags=" +:+ Join (Tags (Overview_ v)) ","]
    end) ++
   (if Vault v =? "" then [] else ["--vault=" +:+ Vault v]))%list.

(** [None] is the nil dereference of [v.Details.DocumentAttributes]. *)
Definition CreateDocument `{Client} (v : Item) (content : list byte)
  (w : list Invocation) : option ((option error * Item) * list Invocation) :=
  match DocumentAttributes_ (Details_ v) with
  | None => None
  | Some da =>
      let args := CreateDocument_args v da in
      let '((res, err), w) := RunStdinCmd content args w in
      match err with
      | None =>
          match getResultID res with
          | inr id => Some ((None, set_UUID id v), w)
          | inl _ => Some ((None, v), w)
          end
      | Some err => Some ((Some (prettyError args res err), v), w)
      end
  end.

(* ===================================================================== *)
(** ** Section/field codec, decode direction (item.go, lines 352-429)     *)
(* ===================================================================== *)

(** The [switch field.Type] of [ProcessField]. *)
Definition ProcessField_key (field : SectionField) : string :=
  if Type_ field =? TypeSex then "sex"
  else if Type_ field =? TypeURL then "url"
  else if Type_ field =? TypeMonthYear then "month_year"
  else if Type_ field =? TypeCard then "card_type"
  else if Type_ field =? TypeConcealed then
    if HasPrefix (N_ field) "TOTP_" then "totp" else "concealed"
  else Type_ field.

(** The loop body of [ProcessField]: [f := {"name": field.Text}] and
    then [f[key] = field.Value]. *)
Definition ProcessField_entry (field : SectionField) : gmap string value :=
  let f : gmap string value := {[ "name" := VStr (Text field) ]} in
  let key := ProcessField_key field in
  <[key := Value field]> f.

Definition ProcessField (srcFields : list SectionField) : list (gmap string value) :=
  foldl (fun fields field => (fields ++ [ProcessField_entry field])%list) [] srcFields.

(** A [[]map[string]interface{}] stored as an [interface{}]. *)
Definition VMaps (l : list (gmap string value)) : value := VList (map VMap l).

Definition ProcessSections (srcSections : list Section) : list (gmap string value) :=
  foldl (fun sections section =>
           (sections ++
              [ <["field" := VMaps (ProcessField (SFields section))]>
                  ({[ "name" := VStr (STitle section) ]} : gmap string value) ])%list)
        [] srcSections.

(** [for k, f := range group.Fields { if f == field.N { src[k] =
    field.Value; found = true; continue } }], over the map's entries in
    the order the iteration visits them. *)
Definition rangeGroupFields (entries : list (string * string)) (field : SectionField)
  (st : gmap string value * bool) : gmap string value * bool :=
  foldl (fun st kf =>
           if snd kf =? N_ field
           then (<[fst kf := Value field]> (fst st), true)
           else st)
        st entries.

(** [for _, field := range section.Fields { found := false; ...;
    if !found { leftFields = append(leftFields, field) } }]. *)
Definition rangeSectionFields (group : SectionGroup) (fields : list SectionField)
  (st : gmap string value * list SectionField)
  : gmap string value * list SectionField :=
  foldl (fun st field =>
           let r := rangeGroupFields (map_to_list (GFields group)) field (fst st, false) in
           (fst r, if snd r then snd st else (snd st ++ [field])%list))
        st fields.

(** The body of [if section.Name == group.Selector]: the map handed to
    [d.Set(group.Name, []interface{}{src})]. *)
Definition groupSrc (group : SectionGroup) (section : Section) : gmap string value :=
  let r := rangeSectionFields group (SFields section)
             ({[ "title" := VStr (STitle section) ]}, []) in
  <["field" := VMaps (ProcessField (snd r))]> (fst r).

(** [for _, group := range groups { ... }] for one section: the error of
    a failed [d.Set] (an early return) or the final [use] flag. *)
Fixpoint rangeGroups `{Framework} (section : Section) (groups : list SectionGroup)
  (use : bool) (d : ResourceData) : (error + bool) * ResourceData :=
  match groups with
  | [] => (inr use, d)
  | group :: groups =>
      if SName section =? Selector group then
        match d_Set d (GName group) (VList [VMap (groupSrc group section)]) with
        | (Some err, d) => (inl err, d)
        | (None, d) => rangeGroups section groups true d
        end
      else rangeGroups section groups use d
  end.

(** [for _, section := range sections { ... }]: the error of an early
    return or the final [leftSections]. *)
Fixpoint rangeSections `{Framework} (sections : list Section) (groups : list SectionGroup)
  (leftSections : list Section) (d : ResourceData)
  : (error + list Section) * ResourceData :=
  match sections with
  | [] => (inr leftSections, d)
  | section :: sections =>
      match rangeGroups section groups false d with
      | (inl err, d) => (inl err, d)
      | (inr use, d) =>
          rangeSections sections groups
            (if use then leftSections else (leftSections ++ [section])%list) d
      end
  end.

Definition parseSectionFromSchema `{Framework} (sections : list Section)
  (d : ResourceData) (groups : list SectionGroup) : option error * ResourceData :=
  match rangeSections sections groups [] d with
  | (inl err, d) => (Some err, d)
  | (inr leftSections, d) => d_Set d "section" (VMaps (ProcessSections leftSections))
  end.

(* ===================================================================== *)
(** ** The identity resource (resource_item_identity.go)                  *)
(* ===================================================================== *)

(** The three elements of the [[]SectionGroup] literal of
    [resourceItemIdentityRead], and the literal. *)
Definition identificationGroup : SectionGroup :=
  {| GName := "identification"; Selector := "name";
     GFields := list_to_map
       [ ("firstname", "firstname"); ("initial", "initial");
         ("lastname", "lastname"); ("sex", "sex");
         ("birth_date", "birthdate"); ("occupation", "occupation");
         ("company", "company"); ("department", "department");
         ("job_title", "jobtitle") ] |}.

Definition addressGroup : SectionGroup :=
  {| GName := "address"; Selector := "address";
     GFields := list_to_map
       [ ("address", "address"); ("default_phone", "defphone");
         ("home_phone", "homephone"); ("cell_phone", "cellphone");
         ("business_phone", "busphone") ] |}.

Definition internetGroup : SectionGroup :=
  {| GName := "internet"; Selector := "internet";
     GFields := list_to_map
       [ ("username", "username"); ("email", "email") ] |}.

Definition identityGroups : list SectionGroup :=
  [identificationGroup; addressGroup; internetGroup].

(** A failed [d.Set] ends a read with [diag.FromErr(err)]. *)
Definition orFail {X : Type} (r : option error * ResourceData)
  (fail : error -> ResourceData -> X) (k : ResourceData -> X) : X :=
  match r with
  | (Some err, d) => fail err d
  | (None, d) => k d
  end.

Definition resourceItemIdentityRead `{Framework} `{Client}
  (d : ResourceData) (w : list Invocation)
  : option (Diagnostics * ResourceData * list Invocation) :=
  vaultID ← d_GetString d "vault";
  let '((v, err), w) := ReadItem (getID d) vaultID w in
  let fail := fun err d => Some (diag_FromErr err, d, w) in
  match err with
  | Some err => fail err d
  | None =>
      match v with
      | None => Some ([], SetId "" d, w)
      | Some v =>
          if negb (Template v =? Category2Template IdentityCategory)
          then fail (ErrNew ("item is not from " +:+ IdentityCategory)) d
          else
            let d := SetId (UUID v) d in
            orFail (d_Set d "name" (VStr (OTitle (Overview_ v)))) fail (fun d =>
            orFail (d_Set d "tags" (VList (map VStr (Tags (Overview_ v))))) fail (fun d =>
            orFail (d_Set d "vault" (VStr (Vault v))) fail (fun d =>
            orFail (d_Set d "notes" (VStr (Notes (Details_ v)))) fail (fun d =>
            orFail (parseSectionFromSchema (Sections (Details_ v)) d identityGroups)
              fail (fun d =>
            (* the error of this last [d.Set] is dropped by the code *)
            let d := snd (d_Set d "archived" (VBool (Trashed v =? IsTrashed))) in
            Some ([], d, w))))))
      end
  end.

(** A well-known field of the create path: every one of them carries
    [Annotation{guarded: "yes"}]. *)
Definition guardedField (k : SectionFieldType) (t : string) (v : value) (n : string)
  (inputs : gmap string string) : SectionField :=
  {| Type_ := k; Text := t; Value := v; N_ := n;
     A_ := {| generate := ""; guarded := "yes"; multiline := ""; clipboardFilter := "" |};
     Inputs := inputs |}.

(** The [&Item{...}] literal of [resourceItemIdentityCreate]; [None] when
    a group list is empty or a type assertion fails. *)
Definition identityItem `{Framework} (d : ResourceData) : option Item :=
  main ← d_GetGroup d "identification";
  address ← d_GetGroup d "address";
  internet ← d_GetGroup d "internet";
  vault ← d_GetString d "vault";
  notes ← d_GetString d "notes";
  mainTitle ← asString main "title";
  firstname ← asString main "firstname";
  initial ← asString main "initial";
  lastname ← asString main "lastname";
  sex ← asString main "sex";
  birth_date ← asInt main "birth_date";
  occupation ← asString main "occupation";
  company ← asString main "company";
  department ← asString main "department";
  job_title ← asString main "job_title";
  addressTitle ← asString address "title";
  addr ← asMap address "address";
  default_phone ← asString address "default_phone";
  home_phone ← asString address "home_phone";
  cell_phone ← asString address "cell_phone";
  business_phone ← asString address "business_phone";
  internetTitle ← asString internet "title";
  username ← asString internet "username";
  email ← asString internet "email";
  name ← d_GetString d "name";
  let words : gmap string string := {[ "autocapitalization" := "Words" ]} in
  let sentences : gmap string string := {[ "autocapitalization" := "Sentences" ]} in
  Some
    {| UUID := "";
       Vault := vault;
       Template := Category2Template IdentityCategory;
       Details_ :=
         {| Notes := notes; Password := ""; Fields := [];
            DocumentAttributes_ := None;
            Sections :=
              ([ {| STitle := mainTitle; SName := "name";
                    SFields :=
                      ([ guardedField "string" "firstname" (VStr firstname) "firstname" words;
                         guardedField "string" "initial" (VStr initial) "initial" words;
                         guardedField "string" "lastname" (VStr lastname) "lastname" words;
                         guardedField "menu" "sex" (VStr sex) "sex" ∅;
                         guardedField "date" "birth date" (VInt birth_date) "birthdate" ∅;
                         guardedField "string" "occupation" (VStr occupation) "occupation" words;
                         guardedField "string" "company" (VStr company) "company" words;
                         guardedField "string" "department" (VStr department) "department" words;
                         guardedField "string" "job title" (VStr job_title) "jobtitle" words ]
                       ++ ParseFields main)%list |};
                 {| STitle := addressTitle; SName := "address";
                    SFields :=
                      ([ guardedField "address" "address" (VMap addr) "address" sentences;
                         guardedField "phone" "default phone" (VStr default_phone) "defphone" ∅;
                         guardedField "phone" "home" (VStr home_phone) "homephone" ∅;
                         guardedField "phone" "cell" (VStr cell_phone) "cellphone" ∅;
                         guardedField "phone" "business" (VStr business_phone) "busphone" ∅ ]
                       ++ ParseFields address)%list |};
                 {| STitle := internetTitle; SName := "internet";
                    SFields :=
                      ([ guardedField "string" "username" (VStr username) "username" sentences;
                         guardedField "string" "email" (VStr email) "email"
                           {[ "keyboard" := "EmailAddress" ]} ]
                       ++ ParseFields internet)%list |} ]
               ++ ParseSections d)%list |};
       Overview_ := {| OTitle := name; URL := ""; Tags := ParseTags d |};
       Trashed := "" |}.

Definition resourceItemIdentityCreate `{Framework} `{Client}
  (d : ResourceData) (w : list Invocation)
  : option (Diagnostics * ResourceData * list Invocation) :=
  item ← identityItem d;
  let '((err, item), w) := CreateItem item w in
  match err with
  | Some err => Some (diag_FromErr err, d, w)
  | None => resourceItemIdentityRead (SetId (UUID item) d) w
  end.

(* ===================================================================== *)
(** ** The document resource (resource_item_document.go, lines 86-131)    *)
(* ===================================================================== *)

(** [None] is the nil dereference of [v.Details.DocumentAttributes] (or a
    failed type assertion on [d.Get("vault")]). *)
Definition resourceItemDocumentRead `{Framework} `{Client}
  (d : ResourceData) (w : list Invocation)
  : option (Diagnostics * ResourceData * list Invocation) :=
  vaultID ← d_GetString d "vault";
  let '((v, err), w) := ReadItem (getID d) vaultID w in
  let fail := fun w err d => Some (diag_FromErr err, d, w) in
  match err with
  | Some err => fail w err d
  | None =>
      match v with
      | None => Some ([], SetId "" d, w)
      | Some v =>
          if negb (Template v =? Category2Template DocumentCategory)
          then fail w (ErrNew ("item is not from " +:+ DocumentCategory)) d
          else
            let d := SetId (UUID v) d in
            orFail (d_Set d "name" (VStr (OTitle (Overview_ v)))) (fail w) (fun d =>
            orFail (d_Set d "tags" (VList (map VStr (Tags (Overview_ v))))) (fail w) (fun d =>
            orFail (d_Set d "vault" (VStr (Vault v))) (fail w) (fun d =>
            match DocumentAttributes_ (Details_ v) with
            | None => None
            | Some da =>
                orFail (d_Set d "filename" (VStr (FileName da))) (fail w) (fun d =>
                (* the error of this [d.Set] is dropped by the code *)
                let d := snd (d_Set d "archived" (VBool (Trashed v =? IsTrashed))) in
                let '((content, err), w) := ReadDocument (UUID v) w in
                match err with
                | Some err => fail w err d
                | None =>
                    orFail (d_Set d "content" (VStr (string_of_list_byte content)))
                      (fail w) (fun d =>
                    orFail (d_Set d "content_base64"
                              (VStr (StdEncoding_EncodeToString content)))
                      (fail w) (fun d =>
                    Some ([], d, w)))
                end)
            end)))
      end
  end.

(* ===================================================================== *)
(** ** The decode direction in the words of the specification            *)
(* ===================================================================== *)

(** What one vault field contributes to a group: its value under every
    configuration key the group's field map sends to the field-name key. *)
Definition matchedBy (group : SectionGroup) (field : SectionField) : gmap string value :=
  (fun _ => Value field) <$>
    filter (fun kf : string * string => snd kf = N_ field) (GFields group).

(** The field-name key appears as a value in the group's field map. *)
Definition isKnown (group : SectionGroup) (field : SectionField) : bool :=
  existsb (fun kf : string * string => snd kf =? N_ field) (map_to_list (GFields group)).

Definition leftoverFields (group : SectionGroup) (section : Section) : list SectionField :=
  List.filter (fun field => negb (isKnown group field)) (SFields section).

(** A matched section under a group: the title, the named attributes
    (later fields win), and the leftover fields rendered generically. *)
Definition decodeGroup (group : SectionGroup) (section : Section) : gmap string value :=
  <["field" := VMaps (map ProcessField_entry (leftoverFields group section))]>
    (foldl (fun src field => matchedBy group field ∪ src)
           {[ "title" := VStr (STitle section) ]} (SFields section)).

(** A leftover section, rendered generically. *)
Definition renderSection (section : Section) : gmap string value :=
  <["field" := VMaps (map ProcessField_entry (SFields section))]>
    {[ "name" := VStr (STitle section) ]}.

Definition selects (section : Section) (group : SectionGroup) : bool :=
  SName section =? Selector group.

(** The attribute writes of a decode: every section, in input order, is
    written under every group whose selector equals its name, in
    group-list order; the sections no group selects are written last,
    under ["section"]. *)
Definition decodeWrites (sections : list Section) (groups : list SectionGroup)
  : list (string * value) :=
  (flat_map (fun section =>
               map (fun group => (GName group, VList [VMap (decodeGroup group section)]))
                   (List.filter (selects section) groups))
            sections
   ++ [ ("section",
         VMaps (map renderSection
                  (List.filter (fun section => negb (existsb (selects section) groups))
                               sections))) ])%list.

(** The reading under which a section is written under the first
    selecting group only. *)
Definition firstMatchWrites (sections : list Section) (groups : list SectionGroup)
  : list (string * value) :=
  (flat_map (fun section =>
               map (fun group => (GName group, VList [VMap (decodeGroup group section)]))
                   (take 1 (List.filter (selects section) groups)))
            sections
   ++ [ ("section",
         VMaps (map renderSection
                  (List.filter (fun section => negb (existsb (selects section) groups))
                               sections))) ])%list.

(** A sequence of [d.Set] calls that stops at the first error. *)
Fixpoint runWrites `{Framework} (ws : list (string * value)) (d : ResourceData)
  : option error * ResourceData :=
  match ws with
  | [] => (None, d)
  | (k, v) :: ws =>
      match d_Set d k v with
      | (Some err, d) => (Some err, d)
      | (None, d) => runWrites ws d
      end
  end.

(** ASCII lower-casing, for the reading of the generic mapping under
    which the default key is the lower-cased kind. *)
Definition lowerAscii (c : ascii) : ascii :=
  let n := nat_of_ascii c in
  if (65 <=? n)%nat && (n <=? 90)%nat then ascii_of_nat (n + 32) else c.

Fixpoint ToLower (s : string) : string :=
  match s with
  | EmptyString => EmptyString
  | String c s => String (lowerAscii c) (ToLower s)
  end.

Definition lowercaseKey (field : SectionField) : string :=
  if Type_ field =? TypeSex then "sex"
  else if Type_ field =? TypeURL then "url"
  else if Type_ field =? TypeMonthYear then "month_year"
  else if Type_ field =? TypeCard then "card_type"
  else if Type_ field =? TypeConcealed then
    if HasPrefix (N_ field) "TOTP_" then "totp" else "concealed"
  else ToLower (Type_ field).

(** [sub] occurs in [s]. *)
Definition IsSubstring (sub s : string) : Prop :=
  exists a b : string, s = a +:+ sub +:+ b.

(** The soft-miss condition with the shorter second phrase. *)
Definition softMissShortPhrase (code : Z) (out : string) : bool :=
  ((code =? 1)%Z && Contains out "isn't an item in") ||
  ((code =? 4)%Z && Contains out "resource was not found").

(** The kinds the generic mapping renames. *)
Definition renamedKinds : list SectionFieldType :=
  [TypeSex; TypeURL; TypeMonthYear; TypeCard; TypeConcealed].

(* ===================================================================== *)
(** ** Concrete environments used in the examples                         *)
(* ===================================================================== *)

(** A framework that accepts every [d.Set] and whose helper functions
    return nothing, except that the identification group declares one
    freeform field of kind [string] with field-name key [nickname]. *)
Definition nicknameField : SectionField :=
  {| Type_ := TypeString; Text := "Nickname"; Value := VStr "Countess"; N_ := "nickname";
     A_ := {| generate := ""; guarded := ""; multiline := ""; clipboardFilter := "" |};
     Inputs := ∅ |}.

Definition plainFramework : Framework :=
  {| schemaCheck := fun _ _ => None;
     getID := Id;
     ParseTags := fun _ => [];
     ParseFields := fun m =>
       match m !! "firstname" with Some _ => [nicknameField] | None => [] end;
     ParseSections := fun _ => [] |}.

(** A binary that answers every invocation with the given output and
    error. *)
Definition constClient (out : list byte) (err : option error) : Client :=
  {| op := fun _ _ => (out, err);
     json_Unmarshal := fun _ => inl (ErrExternal "unexpected end of JSON input");
     json_Marshal := fun _ => inr [];
     getResultID := fun _ => inl (ErrExternal "empty result") |}.

(** A binary that always succeeds with the given output, next to a JSON
    decoder that yields the given item; [getResultID] finds no id. *)
Definition itemClient (v : Item) (out : list byte) : Client :=
  {| op := fun _ _ => (out, None);
     json_Unmarshal := fun _ => inr v;
     json_Marshal := fun _ => inr [];
     getResultID := fun _ => inl (ErrExternal "empty result") |}.

(** An item of the given template, with or without document attributes. *)
Definition sampleItem (template : string) (da : option DocumentAttributes) : Item :=
  {| UUID := "u1"; Template := template; Vault := "v1";
     Overview_ := {| OTitle := "sample"; URL := ""; Tags := [] |};
     Details_ := {| Notes := ""; Password := ""; Fields := []; Sections := [];
                    DocumentAttributes_ := da |};
     Trashed := "N" |}.

Definition emptyData : ResourceData := {| Id := "u1"; attrs := ∅ |}.

(** Two groups with one selector, and a section they both select. *)
Definition twinGroups : list SectionGroup :=
  [ {| Selector := "name"; GName := "first"; GFields := {[ "firstname" := "firstname" ]} |};
    {| Selector := "name"; GName := "second"; GFields := ∅ |} ].

Definition plainField (k : SectionFieldType) (t : string) (v : value) (n : string)
  : SectionField :=
  {| Type_ := k; Text := t; Value := v; N_ := n;
     A_ := {| generate := ""; guarded := ""; multiline := ""; clipboardFilter := "" |};
     Inputs := ∅ |}.

Definition nameSection : Section :=
  {| SName := "name"; STitle := "Identification";
     SFields := [ plainField "string" "firstname" (VStr "Ada") "firstname";
                  plainField "concealed" "one-time" (VStr "otp") "TOTP_1" ] |}.

(** A section no identity group selects. *)
Definition looseSection : Section :=
  {| SName := "Section_1"; STitle := "Extra";
     SFields := [ plainField "concealed" "one-time" (VStr "otp") "TOTP_1";
                  plainField "concealed" "note" (VStr "secret") "note" ] |}.

(** The configuration of the round-trip example: the three groups of an
    identity, the identification group naming Ada Lovelace. *)
Definition adaMain : gmap string value :=
  list_to_map
    [ ("title", VStr "Identification"); ("firstname", VStr "Ada");
      ("initial", VStr ""); ("lastname", VStr "Lovelace");
      ("sex", VStr "female"); ("birth_date", VInt 0);
      ("occupation", VStr ""); ("company", VStr "");
      ("department", VStr ""); ("job_title", VStr "") ].

Definition adaData : ResourceData :=
  {| Id := "";
     attrs :=
       list_to_map
         [ ("identification", VList [ VMap adaMain ]);
           ("address",
            VList [ VMap (list_to_map
              [ ("title", VStr "Address"); ("address", VMap ∅);
                ("default_phone", VStr ""); ("home_phone", VStr "");
                ("cell_phone", VStr ""); ("business_phone", VStr "") ]) ]);
           ("internet",
            VList [ VMap (list_to_map
              [ ("title", VStr "Internet Details"); ("username", VStr "");
                ("email", VStr "") ]) ]) ] |}.

(* ===================================================================== *)
(** ** The document resource, create path (resource_item_document.go,
       lines 133-176), and the importers                                  *)
(* ===================================================================== *)

(** What the create path and the importers take from the Go libraries:
    [ioutil.ReadFile], [filepath.Base], [b64.StdEncoding.DecodeString],
    and [err.Error()], the text [diag.FromErr] stores as the summary. *)
Class Host := {
  ioutil_ReadFile : string -> error + list byte;
  filepath_Base : string -> string;
  StdEncoding_DecodeString : string -> error + list byte;
  Error_ : error -> string }.

(** The zero values of the attribute types. *)
Definition isZero (v : value) : bool :=
  match v with
  | VNil => true
  | VStr s => s =? ""
  | VInt z => (z =? 0)%Z
  | VBool b => negb b
  | VList l => match l with [] => true | _ => false end
  | VMap m => bool_decide (m = ∅)
  end.

(** [d.GetOk(k)]: the value, and whether it is set to something other
    than the zero value; [None] is [ok == false]. *)
Definition d_GetOk (d : ResourceData) (k : string) : option value :=
  match attrs d !! k with
  | None => None
  | Some v => if isZero v then None else Some v
  end.

(** The [&Item{...}] literal of [resourceItemDocumentCreate]; the
    document attributes are the address of the struct literal. [None] is
    a failed type assertion. *)
Definition documentItem `{Framework} (d : ResourceData) (filename : string) : option Item :=
  vault ← d_GetString d "vault";
  name ← d_GetString d "name";
  Some {| UUID := "";
          Vault := vault;
          Template := Category2Template DocumentCategory;
          Overview_ := {| OTitle := name; URL := ""; Tags := ParseTags d |};
          Details_ := {| Notes := ""; Password := ""; Fields := []; Sections := [];
                         DocumentAttributes_ := Some {| FileName := filename |} |};
          Trashed := "" |}.

(** The part of [resourceItemDocumentCreate] after the file name and the
    content are known. *)
Definition documentCreateWith `{Framework} `{Client}
  (d : ResourceData) (w : list Invocation) (filename : string) (fileContent : list byte)
  : option (Diagnostics * ResourceData * list Invocation) :=
  item ← documentItem d filename;
  r ← CreateDocument item fileContent w;
  let '((err, item), w) := r in
  match err with
  | Some err => Some (diag_FromErr err, d, w)
  | None => resourceItemDocumentRead (SetId (UUID item) d) w
  end.

Definition resourceItemDocumentCreate `{Framework} `{Client} `{Host}
  (d : ResourceData) (w : list Invocation)
  : option (Diagnostics * ResourceData * list Invocation) :=
  match d_GetOk d "file_path" with
  | Some (VStr path) =>
      let filename := filepath_Base path in
      match ioutil_ReadFile path with
      | inr dat => documentCreateWith d w filename dat
      | inl err => Some (diag_FromErr err, d, w)
      end
  | Some _ => None
  | None =>
      match d_GetOk d "content_base64" with
      | Some contentB64 =>
          filename ← d_GetString d "filename";
          match contentB64 with
          | VStr contentB64 =>
              match StdEncoding_DecodeString contentB64 with
              | inr dec => documentCreateWith d w filename dec
              | inl err => Some (diag_FromErr err, d, w)
              end
          | _ => None
          end
      | None =>
          filename ← d_GetString d "filename";
          content ← d_GetString d "content";
          documentCreateWith d w filename (list_byte_of_string content)
      end
  end.

(** The [StateContext] of both importers: the read, then
    [errors.New(err[0].Summary)] when it reported diagnostics (all of
    them come from [diag.FromErr], so all are errors). *)
Definition importerStateContext `{Host}
  (read : ResourceData -> list Invocation ->
          option (Diagnostics * ResourceData * list Invocation))
  (d : ResourceData) (w : list Invocation)
  : option ((list ResourceData * option error) * list Invocation) :=
  match read d w with
  | None => None
  | Some (diags, d, w) =>
      match diags with
      | err :: _ => Some (([d], Some (ErrNew (Error_ err))), w)
      | [] => Some (([d], None), w)
      end
  end.

Definition resourceItemIdentity_StateContext `{Framework} `{Client} `{Host}
  (d : ResourceData) (w : list Invocation) :=
  importerStateContext resourceItemIdentityRead d w.

Definition resourceItemDocument_StateContext `{Framework} `{Client} `{Host}
  (d : ResourceData) (w : list Invocation) :=
  importerStateContext resourceItemDocumentRead d w.

(** A host with no files and no decodable text. *)
Definition bareHost : Host :=
  {| ioutil_ReadFile := fun _ => inl (ErrExternal "no such file or directory");
     filepath_Base := fun p => p;
     StdEncoding_DecodeString := fun _ => inl (ErrExternal "illegal base64 data");
     Error_ := fun _ => "error" |}.

(** A framework whose schema refuses the [archived] attribute only. *)
Definition strictFramework : Framework :=
  {| schemaCheck := fun k _ =>
       if k =? "archived" then Some (ErrExternal "archived: not settable") else None;
     getID := Id;
     ParseTags := fun _ => [];
     ParseFields := fun _ => [];
     ParseSections := fun _ => [] |}.

(** A binary that serves items but fails on documents with the given
    output. *)
Definition noDocumentClient (v : Item) (out : list byte) : Client :=
  {| op := fun _ i =>
       match argv i with
       | _ :: "document" :: _ => (out, Some (ExitError 1))
       | _ => ([], None)
       end;
     json_Unmarshal := fun _ => inr v;
     json_Marshal := fun _ => inr [];
     getResultID := fun _ => inl (ErrExternal "empty result") |}.

(** A framework whose schema refuses every write to the [address]
    attribute. *)
Definition noAddressFramework : Framework :=
  {| schemaCheck := fun k _ =>
       if k =? "address" then Some (ErrExternal "address: invalid") else None;
     getID := Id;
     ParseTags := fun _ => [];
     ParseFields := fun _ => [];
     ParseSections := fun _ => [] |}.

Definition addressSection : Section :=
  {| SName := "address"; STitle := "Address";
     SFields := [ plainField "phone" "home" (VStr "555") "homephone" ] |}.


(** The same, given as (undecodable) base64 text. *)
Definition badBase64Data : ResourceData :=
  {| Id := "";
     attrs := list_to_map
       [ ("name", VStr "notes"); ("filename", VStr "a.txt");
         ("content_base64", VStr "!!") ] |}.

(* ===================================================================== *)
(** ** The category registry                                              *)
(* ===================================================================== *)

(** Membership in a list of string literals, by cases. *)
Ltac in_cases H :=
  repeat (destruct H as [H | H]; [subst | ]); try contradiction.

(** An input outside a list of literals fails every comparison of a
    switch over those literals. *)
Ltac skip_cases H :=
  repeat match goal with
         | |- context [String.eqb ?x ?y] =>
             destruct (String.eqb_spec x y);
             [ exfalso; apply H; simpl; intuition congruence | ]
         end.

(** C5. For every category [c] of the registry,
    [Template2Category (Category2Template c) = c]. *)
Theorem registry_round_trip (c : Category) :
  In c registry -> Template2Category (Category2Template c) = c.
Proof. intros H. unfold registry in H. simpl in H. in_cases H; reflexivity. Qed.

Lemma registry_round_trip_witness :
  In IdentityCategory registry /\
  Template2Category (Category2Template IdentityCategory) = IdentityCategory.
Proof.
  split; [ simpl; tauto | apply (registry_round_trip IdentityCategory); simpl; tauto ].
Defined.

(** The sentinel itself survives the round trip, other strings do not. *)
Example unknown_round_trip :
  Template2Category (Category2Template UnknownCategory) = UnknownCategory.
Proof. reflexivity. Qed.

Example stranger_round_trip :
  Template2Category (Category2Template "Gift Card") = UnknownCategory.
Proof. reflexivity. Qed.

(** C8. Both lookups are total functions into plain strings (no error
    component in their types); an input outside the fixed table yields the
    sentinel: [Template2Category] gives [UnknownCategory] (so for ["999"]),
    [Category2Template] gives ["000"]. *)
Theorem registry_sentinels :
  (forall t : string, ~ In t templates -> Template2Category t = UnknownCategory) /\
  (forall c : Category, ~ In c registry -> Category2Template c = "000") /\
  Template2Category "999" = UnknownCategory.
Proof.
  split; [ | split; [ | reflexivity ] ].
  - intros t H. unfold Template2Category. skip_cases H. reflexivity.
  - intros c H. unfold Category2Template, registry in *. skip_cases H. reflexivity.
Qed.

Lemma registry_sentinels_witness :
  Template2Category "999" = UnknownCategory /\ Category2Template "Gift Card" = "000".
Proof.
  destruct registry_sentinels as (Ht & Hc & _).
  split; [ apply Ht | apply Hc ]; simpl; intros H; in_cases H; discriminate.
Defined.

(* ===================================================================== *)
(** ** Substrings                                                         *)
(* ===================================================================== *)

Lemma prefix_app (p s : string) :
  String.prefix p s = true <-> exists b : string, s = p +:+ b.
Proof.
  revert s. induction p as [ | c p IH]; intros s.
  - split; [ intros _; exists s; reflexivity | destruct s; reflexivity ].
  - destruct s as [ | c' s].
    + split; [ discriminate | intros [b Hb]; discriminate ].
    + change (String.prefix (String c p) (String c' s))
        with (if ascii_dec c c' then String.prefix p s else false).
      destruct (ascii_dec c c') as [-> | Hne].
      * rewrite IH. split; intros [b Hb]; exists b.
        -- simpl. now rewrite Hb.
        -- simpl in Hb. now injection Hb.
      * split; [ discriminate | intros [b Hb]; simpl in Hb; injection Hb; intros; congruence ].
Qed.

(** [Contains] decides [IsSubstring]. *)
Lemma Contains_spec (s sub : string) :
  Contains s sub = true <-> IsSubstring sub s.
Proof.
  unfold IsSubstring. induction s as [ | c s IH]; simpl.
  - rewrite orb_false_r. destruct sub as [ | c' sub]; simpl.
    + split; [ intros _; exists "", ""; reflexivity | reflexivity ].
    + split; [ discriminate | intros (a & b & Hab); destruct a; discriminate ].
  - rewrite orb_true_iff, IH. split.
    + intros [Hp | (a & b & ->)].
      * apply (prefix_app sub (String c s)) in Hp as [b Hb]. exists "", b. exact Hb.
      * exists (String c a), b. reflexivity.
    + intros (a & b & Hab). destruct a as [ | c' a].
      * left. apply (prefix_app sub (String c s)). exists b. exact Hab.
      * right. injection Hab as _ ->. exists a, b. reflexivity.
Qed.

(* ===================================================================== *)
(** ** Item operations                                                    *)
(* ===================================================================== *)

(** The two soft-miss conditions of [itemNotFound]. *)
Lemma itemNotFound_spec (out : string) (err : error) :
  itemNotFound out err = true <->
  exists code : Z, err = ExitError code /\
    ((code = 1%Z /\ IsSubstring "isn't an item in" out) \/
     (code = 4%Z /\ IsSubstring "The requested resource was not found" out)).
Proof.
  destruct err as [code | | | ]; simpl;
    try (split; [ discriminate | intros (c & Hc & _); discriminate ]).
  rewrite orb_true_iff, !andb_true_iff, !Z.eqb_eq, !Contains_spec.
  split.
  - intros Hc. exists code. split; [ reflexivity | exact Hc ].
  - intros (c & [= <-] & Hc). exact Hc.
Qed.

(** C4, as amended. When the external command fails, [ReadItem] returns
    the empty result with no error exactly when the failure is exit code 1
    with output containing "isn't an item in", or exit code 4 with output
    containing "The requested resource was not found"; every other failure
    is returned as a hard error carrying the arguments, the output and the
    cause. *)
Theorem soft_miss_classification `{Client} (id vaultID : string)
  (w w' : list Invocation) (res : list byte) (err : error) :
  RunSimpleCmd (ReadItem_args id vaultID) w = ((res, Some err), w') ->
  let soft :=
    exists code : Z, err = ExitError code /\
      ((code = 1%Z /\ IsSubstring "isn't an item in" (string_of_list_byte res)) \/
       (code = 4%Z /\
        IsSubstring "The requested resource was not found" (string_of_list_byte res))) in
  (soft -> ReadItem id vaultID w = ((None, None), w')) /\
  (~ soft ->
   ReadItem id vaultID w =
     ((None, Some (prettyError (ReadItem_args id vaultID) res err)), w')).
Proof.
  intros Hrun soft. unfold ReadItem. rewrite Hrun.
  pose proof (itemNotFound_spec (string_of_list_byte res) err) as Hspec.
  fold soft in Hspec.
  destruct (itemNotFound (string_of_list_byte res) err).
  - split; [ reflexivity | intros Hn; exfalso; apply Hn, Hspec; reflexivity ].
  - split; [ intros Hs; apply Hspec in Hs; discriminate | reflexivity ].
Qed.

Lemma soft_miss_classification_witness :
  @ReadItem (constClient (list_byte_of_string "[ERROR] The requested resource was not found")
               (Some (ExitError 4)))
            "id" "" [] =
    ((None, None), [ {| stdin := None; argv := ["get"; "item"; "id"] |} ]).
Proof.
  refine (proj1 (@soft_miss_classification
                   (constClient
                      (list_byte_of_string "[ERROR] The requested resource was not found")
                      (Some (ExitError 4)))
                   "id" "" []
                   [ {| stdin := None; argv := ["get"; "item"; "id"] |} ]
                   (list_byte_of_string "[ERROR] The requested resource was not found")
                   (ExitError 4) eq_refl) _).
  exists 4%Z. split; [ reflexivity | right; split; [ reflexivity | ] ].
  exists "[ERROR] ", "". reflexivity.
Defined.

(** C4, as stated, fails: exit code 4 with the output "resource was not
    found" satisfies the stated condition, and [ReadItem] returns a hard
    error. *)
Lemma soft_miss_short_phrase_counterexample :
  let out := list_byte_of_string "resource was not found" in
  softMissShortPhrase 4 (string_of_list_byte out) = true /\
  fst (@ReadItem (constClient out (Some (ExitError 4))) "id" "" []) =
    (None, Some (prettyError ["get"; "item"; "id"] out (ExitError 4))).
Proof. split; reflexivity. Qed.

(** C9. When the external create command succeeds but no id can be
    extracted from its output, [CreateItem] and [CreateDocument] return no
    error and leave the item (so its UUID) as it was. *)
Theorem create_discards_extraction_error `{Client} :
  (forall (v : Item) (w w' : list Invocation) (details res : list byte) (e : error),
      json_Marshal (Details_ v) = inr details ->
      Template2Category (Template v) <> UnknownCategory ->
      RunSimpleCmd
        (CreateItem_args v (Template2Category (Template v)) (base64url_Encode details)) w
        = ((res, None), w') ->
      getResultID res = inl e ->
      CreateItem v w = ((None, v), w')) /\
  (forall (v : Item) (content : list byte) (w w' : list Invocation)
          (da : DocumentAttributes) (res : list byte) (e : error),
      DocumentAttributes_ (Details_ v) = Some da ->
      RunStdinCmd content (CreateDocument_args v da) w = ((res, None), w') ->
      getResultID res = inl e ->
      CreateDocument v content w = Some ((None, v), w')).
Proof.
  split.
  - intros v w w' details res e Hm Ht Hrun Hid. unfold CreateItem. rewrite Hm.
    destruct (String.eqb_spec (Template2Category (Template v)) UnknownCategory) as [Heq | _];
      [ contradiction | ].
    rewrite Hrun, Hid. reflexivity.
  - intros v content w w' da res e Hda Hrun Hid. unfold CreateDocument.
    rewrite Hda, Hrun, Hid. reflexivity.
Qed.

Lemma create_discards_extraction_error_witness :
  let v := sampleItem "004" (Some {| FileName := "a.txt" |}) in
  @CreateItem (constClient [] None) v [] =
    ((None, v),
     [ {| stdin := None; argv := ["create"; "item"; "Identity"; ""; "--vault=v1"; "--title=sample"] |} ]) /\
  @CreateDocument (constClient [] None) v [x41%byte] [] =
    Some ((None, v),
          [ {| stdin := Some [x41%byte];
               argv := ["create"; "document"; "-"; "--title=sample"; "--filename=a.txt";
                        "--vault=v1"] |} ]).
Proof.
  intros v.
  destruct (@create_discards_extraction_error (constClient [] None)) as [Hi Hd].
  split.
  - apply (Hi v [] _ [] [] (ErrExternal "empty result")); [ reflexivity | discriminate | reflexivity | reflexivity ].
  - apply (Hd v [x41%byte] [] _ {| FileName := "a.txt" |} [] (ErrExternal "empty result"));
      reflexivity.
Defined.

(** With an id in the output, the same paths assign it. *)
Lemma CreateItem_assigns_id `{Client} (v : Item) (w w' : list Invocation)
  (details res : list byte) (id : string) :
  json_Marshal (Details_ v) = inr details ->
  Template2Category (Template v) <> UnknownCategory ->
  RunSimpleCmd
    (CreateItem_args v (Template2Category (Template v)) (base64url_Encode details)) w
    = ((res, None), w') ->
  getResultID res = inr id ->
  CreateItem v w = ((None, set_UUID id v), w').
Proof.
  intros Hm Ht Hrun Hid. unfold CreateItem. rewrite Hm.
  destruct (String.eqb_spec (Template2Category (Template v)) UnknownCategory) as [Heq | _];
    [ contradiction | ].
  rewrite Hrun, Hid. reflexivity.
Qed.

(* ===================================================================== *)
(** ** Typed reads                                                        *)
(* ===================================================================== *)

(** C6. A typed read that fetched an item whose template is not the one of
    the resource's category returns a hard error and leaves the record
    untouched; the soft miss is a different outcome: no diagnostics and
    the id cleared. *)
Theorem wrong_category_read_fails `{Framework} `{Client}
  (d : ResourceData) (w w' : list Invocation) (vaultID : string) :
  d_GetString d "vault" = Some vaultID ->
  (forall v : Item,
      ReadItem (getID d) vaultID w = ((Some v, None), w') ->
      (Template v <> Category2Template IdentityCategory ->
       resourceItemIdentityRead d w =
         Some (diag_FromErr (ErrNew "item is not from Identity"), d, w')) /\
      (Template v <> Category2Template DocumentCategory ->
       resourceItemDocumentRead d w =
         Some (diag_FromErr (ErrNew "item is not from Document"), d, w'))) /\
  (ReadItem (getID d) vaultID w = ((None, None), w') ->
   resourceItemIdentityRead d w = Some ([], SetId "" d, w') /\
   resourceItemDocumentRead d w = Some ([], SetId "" d, w')).
Proof.
  intros Hvault. split.
  - intros v Hread. split; intros Hne.
    + unfold resourceItemIdentityRead. rewrite Hvault. simpl. rewrite Hread.
      destruct (String.eqb_spec (Template v) (Category2Template IdentityCategory));
        [ contradiction | reflexivity ].
    + unfold resourceItemDocumentRead. rewrite Hvault. simpl. rewrite Hread.
      destruct (String.eqb_spec (Template v) (Category2Template DocumentCategory));
        [ contradiction | reflexivity ].
  - intros Hread. split.
    + unfold resourceItemIdentityRead. rewrite Hvault. simpl. rewrite Hread. reflexivity.
    + unfold resourceItemDocumentRead. rewrite Hvault. simpl. rewrite Hread. reflexivity.
Qed.

Lemma wrong_category_read_fails_witness :
  let v := sampleItem "001" None in
  let w' := [ {| stdin := None; argv := ["get"; "item"; "u1"] |} ] in
  @resourceItemIdentityRead plainFramework (itemClient v []) emptyData [] =
    Some ([ErrNew "item is not from Identity"], emptyData, w') /\
  @resourceItemDocumentRead plainFramework (itemClient v []) emptyData [] =
    Some ([ErrNew "item is not from Document"], emptyData, w').
Proof.
  intros v w'.
  destruct (@wrong_category_read_fails plainFramework (itemClient v []) emptyData [] w' ""
              eq_refl) as [Hbad _].
  destruct (Hbad v eq_refl) as [Hi Hd].
  split; [ apply Hi | apply Hd ]; discriminate.
Defined.

(** The document read up to the dereference of the document attributes:
    the shape of the result once the item is fetched, of the right
    template, and the first three attributes are accepted. *)
Lemma document_read_reaches_dereference `{Framework} `{Client}
  (d : ResourceData) (w w' : list Invocation) (vaultID : string) (v : Item) :
  d_GetString d "vault" = Some vaultID ->
  ReadItem (getID d) vaultID w = ((Some v, None), w') ->
  Template v = Category2Template DocumentCategory ->
  schemaCheck "name" (VStr (OTitle (Overview_ v))) = None ->
  schemaCheck "tags" (VList (map VStr (Tags (Overview_ v)))) = None ->
  schemaCheck "vault" (VStr (Vault v)) = None ->
  resourceItemDocumentRead d w =
    match DocumentAttributes_ (Details_ v) with
    | None => None
    | Some da =>
        let fail := fun w err d => Some (diag_FromErr err, d, w) in
        let d3 :=
          {| Id := UUID v;
             attrs := <["vault" := VStr (Vault v)]>
                        (<["tags" := VList (map VStr (Tags (Overview_ v)))]>
                           (<["name" := VStr (OTitle (Overview_ v))]> (attrs d))) |} in
        orFail (d_Set d3 "filename" (VStr (FileName da))) (fail w') (fun d =>
        let d := snd (d_Set d "archived" (VBool (Trashed v =? IsTrashed))) in
        let '((content, err), w) := ReadDocument (UUID v) w' in
        match err with
        | Some err => fail w err d
        | None =>
            orFail (d_Set d "content" (VStr (string_of_list_byte content)))
              (fail w) (fun d =>
            orFail (d_Set d "content_base64"
                      (VStr (StdEncoding_EncodeToString content)))
              (fail w) (fun d => Some ([], d, w)))
        end)
    end.
Proof.
  intros Hvault Hread Ht Hn Htags Hv.
  unfold resourceItemDocumentRead. rewrite Hvault. simpl. rewrite Hread, Ht.
  rewrite String.eqb_refl. simpl.
  unfold d_Set at 1. rewrite Hn. simpl.
  unfold d_Set at 1. rewrite Htags. simpl.
  unfold d_Set at 1. rewrite Hv. simpl.
  reflexivity.
Qed.

(** C10. Once the item is fetched, carries the Document template and the
    first three attributes are accepted, the document read ends in the
    nil dereference exactly when the item has no document attributes. *)
Theorem document_read_nil_dereference `{Framework} `{Client}
  (d : ResourceData) (w w' : list Invocation) (vaultID : string) (v : Item) :
  d_GetString d "vault" = Some vaultID ->
  ReadItem (getID d) vaultID w = ((Some v, None), w') ->
  Template v = Category2Template DocumentCategory ->
  schemaCheck "name" (VStr (OTitle (Overview_ v))) = None ->
  schemaCheck "tags" (VList (map VStr (Tags (Overview_ v)))) = None ->
  schemaCheck "vault" (VStr (Vault v)) = None ->
  (resourceItemDocumentRead d w = None <-> DocumentAttributes_ (Details_ v) = None).
Proof.
  intros Hvault Hread Ht Hn Htags Hv.
  rewrite (document_read_reaches_dereference d w w' vaultID v) by assumption.
  destruct (DocumentAttributes_ (Details_ v)) as [da | ]; [ | tauto ].
  split; [ | discriminate ].
  intros Hnone. exfalso. revert Hnone. simpl. unfold orFail, d_Set.
  repeat match goal with
         | |- context [schemaCheck ?k ?x] => destruct (schemaCheck k x); simpl
         | |- context [ReadDocument ?i ?x] =>
             destruct (ReadDocument i x) as [[? [?|]] ?]; simpl
         end; discriminate.
Qed.

Lemma document_read_nil_dereference_witness :
  @resourceItemDocumentRead plainFramework (itemClient (sampleItem "006" None) [])
     emptyData [] = None.
Proof.
  apply (@document_read_nil_dereference plainFramework
           (itemClient (sampleItem "006" None) []) emptyData []
           [ {| stdin := None; argv := ["get"; "item"; "u1"] |} ] ""
           (sampleItem "006" None));
    reflexivity.
Defined.

(** C7. When [ReadDocument] returns the bytes [B], the document read sets
    [content] to [B] read as a string and [content_base64] to the standard
    base64 encoding of [B]; [CreateDocument] runs the binary once, with
    the bytes it was given on standard input, unchanged, and [-] as the
    third argument. *)
Theorem document_content_attributes `{Framework} `{Client} :
  (forall (d : ResourceData) (w w1 w2 : list Invocation) (vaultID : string)
          (v : Item) (da : DocumentAttributes) (B : list byte),
      (forall (k : string) (x : value), k <> "archived" -> schemaCheck k x = None) ->
      d_GetString d "vault" = Some vaultID ->
      ReadItem (getID d) vaultID w = ((Some v, None), w1) ->
      Template v = Category2Template DocumentCategory ->
      DocumentAttributes_ (Details_ v) = Some da ->
      ReadDocument (UUID v) w1 = ((B, None), w2) ->
      exists d' : ResourceData,
        resourceItemDocumentRead d w = Some ([], d', w2) /\
        attrs d' !! "content" = Some (VStr (string_of_list_byte B)) /\
        attrs d' !! "content_base64" = Some (VStr (StdEncoding_EncodeToString B))) /\
  (forall (v : Item) (content : list byte) (w : list Invocation) (da : DocumentAttributes),
      DocumentAttributes_ (Details_ v) = Some da ->
      exists (r : option error * Item) (args : list string),
        CreateDocument v content w =
          Some (r, (w ++ [ {| stdin := Some content; argv := args |} ])%list) /\
        firstn 3 args = [opPasswordCreate; DocumentResource; "-"]).
Proof.
  split.
  - intros d w w1 w2 vaultID v da B Hacc Hvault Hread Ht Hda Hdoc.
    rewrite (document_read_reaches_dereference d w w1 vaultID v)
      by (try assumption; apply Hacc; discriminate).
    rewrite Hda. simpl. unfold d_Set at 1.
    rewrite (Hacc "filename") by discriminate. simpl.
    rewrite Hdoc.
    set (d4 := snd (d_Set _ "archived" _)).
    unfold orFail, d_Set.
    rewrite (Hacc "content"), (Hacc "content_base64") by discriminate.
    eexists. split; [ reflexivity | ]. simpl. split.
    + rewrite lookup_insert_ne by discriminate. apply lookup_insert_eq.
    + apply lookup_insert_eq.
  - intros v content w da Hda. unfold CreateDocument, RunStdinCmd. rewrite Hda.
    destruct (op w _) as [res [err | ]].
    + eexists _, _. split; reflexivity.
    + destruct (getResultID res); eexists _, _; split; reflexivity.
Qed.

Lemma document_content_attributes_witness :
  let v := sampleItem "006" (Some {| FileName := "a.txt" |}) in
  let B := list_byte_of_string "foob" in
  exists d' : ResourceData,
    @resourceItemDocumentRead plainFramework (itemClient v B) emptyData [] =
      Some ([], d',
            [ {| stdin := None; argv := ["get"; "item"; "u1"] |};
              {| stdin := None; argv := ["get"; "document"; "u1"] |} ]) /\
    attrs d' !! "content" = Some (VStr "foob") /\
    attrs d' !! "content_base64" = Some (VStr "Zm9vYg==").
Proof.
  intros v B.
  destruct (@document_content_attributes plainFramework (itemClient v B)) as [Hread _].
  apply (Hread emptyData [] [ {| stdin := None; argv := ["get"; "item"; "u1"] |} ] _ ""
           v {| FileName := "a.txt" |} B); reflexivity.
Defined.

(** RFC 4648 test vectors. *)
Example base64_vectors :
  map (fun s => StdEncoding_EncodeToString (list_byte_of_string s))
      [""; "f"; "fo"; "foo"; "foob"; "fooba"; "foobar"]
  = [""; "Zg=="; "Zm8="; "Zm9v"; "Zm9vYg=="; "Zm9vYmE="; "Zm9vYmFy"].
Proof. reflexivity. Qed.

Example base64url_vectors :
  map base64url_Encode [[xfb%byte; xff%byte]; [xfb%byte]; list_byte_of_string "foob"]
  = ["-_8"; "-w"; "Zm9vYg"].
Proof. reflexivity. Qed.

(* ===================================================================== *)
(** ** The codec: loops as list functions                                 *)
(* ===================================================================== *)

Lemma foldl_snoc_map {X Y : Type} (g : X -> Y) (l : list X) (init : list Y) :
  foldl (fun acc x => (acc ++ [g x])%list) init l = (init ++ map g l)%list.
Proof.
  revert init. induction l as [ | x l IH]; intros init; simpl.
  - now rewrite app_nil_r.
  - rewrite IH, <- app_assoc. reflexivity.
Qed.

Lemma ProcessField_map (srcFields : list SectionField) :
  ProcessField srcFields = map ProcessField_entry srcFields.
Proof. unfold ProcessField. now rewrite foldl_snoc_map. Qed.

Lemma ProcessSections_map (srcSections : list Section) :
  ProcessSections srcSections = map renderSection srcSections.
Proof.
  unfold ProcessSections.
  rewrite (foldl_snoc_map
             (fun section =>
                <["field" := VMaps (ProcessField (SFields section))]>
                  ({[ "name" := VStr (STitle section) ]} : gmap string value))).
  simpl. apply map_ext. intros s. unfold renderSection. now rewrite ProcessField_map.
Qed.

(** The inner loop over the field map: which keys it assigns, and when it
    raises [found]. *)
Lemma rangeGroupFields_lookup (entries : list (string * string)) (field : SectionField)
  (src : gmap string value) (found : bool) (k : string) :
  fst (rangeGroupFields entries field (src, found)) !! k =
    if decide ((k, N_ field) ∈ entries) then Some (Value field) else src !! k.
Proof.
  unfold rangeGroupFields. revert src found.
  induction entries as [ | [k' n'] entries IH]; intros src found; cbn [foldl fst snd].
  - rewrite decide_False; [ reflexivity | apply not_elem_of_nil ].
  - destruct (String.eqb_spec n' (N_ field)) as [-> | Hne]; rewrite IH.
    + destruct (decide ((k, N_ field) ∈ entries)) as [Hin | Hnin].
      * rewrite decide_True by (right; exact Hin). reflexivity.
      * destruct (decide (k' = k)) as [-> | Hk].
        -- rewrite decide_True by left. apply lookup_insert_eq.
        -- rewrite decide_False.
           ++ now apply lookup_insert_ne.
           ++ intros Hin. apply elem_of_cons in Hin as [[= ?] | Hin]; [ congruence | contradiction ].
    + destruct (decide ((k, N_ field) ∈ entries)) as [Hin | Hnin].
      * rewrite decide_True by (right; exact Hin). reflexivity.
      * rewrite decide_False; [ reflexivity | ].
        intros Hin. apply elem_of_cons in Hin as [[= ? ?] | Hin]; [ congruence | contradiction ].
Qed.

Lemma rangeGroupFields_found (entries : list (string * string)) (field : SectionField)
  (src : gmap string value) (found : bool) :
  snd (rangeGroupFields entries field (src, found)) =
    found || existsb (fun kf : string * string => snd kf =? N_ field) entries.
Proof.
  unfold rangeGroupFields. revert src found.
  induction entries as [ | [k' n'] entries IH]; intros src found; simpl.
  - now rewrite orb_false_r.
  - destruct (String.eqb_spec n' (N_ field)); rewrite IH; simpl.
    + now rewrite orb_true_r.
    + reflexivity.
Qed.

(** The assignments of the inner loop do not depend on the order in which
    the iteration visits the field map. *)
Lemma rangeGroupFields_order (entries entries' : list (string * string))
  (field : SectionField) (src : gmap string value) (found : bool) :
  entries ≡ₚ entries' ->
  rangeGroupFields entries field (src, found) =
  rangeGroupFields entries' field (src, found).
Proof.
  intros Hperm.
  rewrite (surjective_pairing (rangeGroupFields entries field (src, found))).
  rewrite (surjective_pairing (rangeGroupFields entries' field (src, found))).
  f_equal.
  - apply map_eq. intros k. rewrite !rangeGroupFields_lookup.
    destruct (decide ((k, N_ field) ∈ entries)) as [Hin | Hnin].
    + rewrite decide_True; [ reflexivity | now rewrite <- Hperm ].
    + rewrite decide_False; [ reflexivity | now rewrite <- Hperm ].
  - rewrite !rangeGroupFields_found. f_equal.
    apply eq_true_iff_eq. rewrite !existsb_exists.
    split; intros (x & Hx & Hx'); exists x; split; try assumption;
      apply list_elem_of_In; apply list_elem_of_In in Hx;
      [ now rewrite <- Hperm | now rewrite Hperm ].
Qed.

Lemma matchedBy_lookup (group : SectionGroup) (field : SectionField) (k : string) :
  matchedBy group field !! k =
    match GFields group !! k with
    | Some n => if n =? N_ field then Some (Value field) else None
    | None => None
    end.
Proof.
  unfold matchedBy. rewrite lookup_fmap.
  destruct (GFields group !! k) as [n | ] eqn:Hk.
  - destruct (String.eqb_spec n (N_ field)) as [Heq | Hne].
    + erewrite (proj2 (map_lookup_filter_Some _ _ k n)); [ reflexivity | ].
      split; [ exact Hk | exact Heq ].
    + rewrite (proj2 (map_lookup_filter_None _ _ k)); [ reflexivity | ].
      right. intros n' Hn'. rewrite Hk in Hn'. injection Hn' as <-. exact Hne.
  - rewrite (proj2 (map_lookup_filter_None _ _ k)); [ reflexivity | ].
    left. exact Hk.
Qed.

Lemma rangeGroupFields_matchedBy (group : SectionGroup) (field : SectionField)
  (src : gmap string value) (found : bool) :
  rangeGroupFields (map_to_list (GFields group)) field (src, found) =
    (matchedBy group field ∪ src, found || isKnown group field).
Proof.
  rewrite (surjective_pairing (rangeGroupFields _ field (src, found))). f_equal.
  - apply map_eq. intros k.
    rewrite rangeGroupFields_lookup, lookup_union, matchedBy_lookup.
    destruct (decide ((k, N_ field) ∈ map_to_list (GFields group))) as [Hin | Hnin].
    + apply elem_of_map_to_list in Hin. rewrite Hin, String.eqb_refl.
      now destruct (src !! k).
    + destruct (GFields group !! k) as [n | ] eqn:Hk.
      * destruct (String.eqb_spec n (N_ field)) as [-> | Hne].
        -- exfalso. apply Hnin. now apply elem_of_map_to_list.
        -- now destruct (src !! k).
      * now destruct (src !! k).
  - apply rangeGroupFields_found.
Qed.

Lemma rangeSectionFields_spec (group : SectionGroup) (fields : list SectionField)
  (src : gmap string value) (left : list SectionField) :
  rangeSectionFields group fields (src, left) =
    (foldl (fun src field => matchedBy group field ∪ src) src fields,
     (left ++ List.filter (fun field => negb (isKnown group field)) fields)%list).
Proof.
  unfold rangeSectionFields. revert src left.
  induction fields as [ | field fields IH]; intros src left; simpl.
  - now rewrite app_nil_r.
  - rewrite rangeGroupFields_matchedBy. simpl.
    destruct (isKnown group field); simpl; rewrite IH.
    + reflexivity.
    + now rewrite <- app_assoc.
Qed.

Lemma groupSrc_decodeGroup (group : SectionGroup) (section : Section) :
  groupSrc group section = decodeGroup group section.
Proof.
  unfold groupSrc, decodeGroup, leftoverFields.
  rewrite rangeSectionFields_spec. simpl. now rewrite ProcessField_map.
Qed.

(* ===================================================================== *)
(** ** The decode as a sequence of attribute writes                       *)
(* ===================================================================== *)

Lemma runWrites_app `{Framework} (ws ws' : list (string * value)) (d : ResourceData) :
  runWrites (ws ++ ws') d =
    match runWrites ws d with
    | (Some err, d') => (Some err, d')
    | (None, d') => runWrites ws' d'
    end.
Proof.
  revert d. induction ws as [ | [k v] ws IH]; intros d; simpl; [ reflexivity | ].
  destruct (d_Set d k v) as [[err | ] d']; [ reflexivity | apply IH ].
Qed.

(** With a schema that accepts every write, the writes all happen. *)
Lemma runWrites_accepted `{Framework} (ws : list (string * value)) (d : ResourceData) :
  (forall (k : string) (v : value), schemaCheck k v = None) ->
  runWrites ws d =
    (None, {| Id := Id d;
              attrs := foldl (fun m kv => <[fst kv := snd kv]> m) (attrs d) ws |}).
Proof.
  intros Hacc. revert d. induction ws as [ | [k v] ws IH]; intros d; simpl.
  - now destruct d.
  - unfold d_Set. rewrite Hacc, IH. reflexivity.
Qed.

(** A key that is not written keeps its value. *)
Lemma writes_preserve (ws : list (string * value)) (m : gmap string value) (k : string) :
  ~ In k (map fst ws) ->
  foldl (fun m kv => <[fst kv := snd kv]> m) m ws !! k = m !! k.
Proof.
  revert m. induction ws as [ | [k' v] ws IH]; intros m Hk; simpl; [ reflexivity | ].
  simpl in Hk. rewrite IH by tauto. apply lookup_insert_ne. tauto.
Qed.

Lemma rangeGroups_writes `{Framework} (section : Section) (groups : list SectionGroup)
  (use : bool) (d : ResourceData) :
  rangeGroups section groups use d =
    match runWrites
            (map (fun group => (GName group, VList [VMap (decodeGroup group section)]))
                 (List.filter (selects section) groups)) d with
    | (Some err, d') => (inl err, d')
    | (None, d') => (inr (use || existsb (selects section) groups), d')
    end.
Proof.
  revert use d. induction groups as [ | group groups IH]; intros use d; simpl.
  - now rewrite orb_false_r.
  - change (SName section =? Selector group) with (selects section group).
    destruct (selects section group); simpl.
    + rewrite groupSrc_decodeGroup.
      destruct (d_Set d (GName group) _) as [[err | ] d']; [ reflexivity | ].
      rewrite IH. simpl. now rewrite orb_true_r.
    + apply IH.
Qed.

Lemma rangeSections_writes `{Framework} (sections : list Section)
  (groups : list SectionGroup) (leftSections : list Section) (d : ResourceData) :
  rangeSections sections groups leftSections d =
    match runWrites
            (flat_map (fun section =>
                         map (fun group =>
                                (GName group, VList [VMap (decodeGroup group section)]))
                             (List.filter (selects section) groups))
                      sections) d with
    | (Some err, d') => (inl err, d')
    | (None, d') =>
        (inr (leftSections ++
              List.filter (fun section => negb (existsb (selects section) groups))
                          sections)%list, d')
    end.
Proof.
  revert leftSections d.
  induction sections as [ | section sections IH]; intros leftSections d; simpl.
  - now rewrite app_nil_r.
  - rewrite rangeGroups_writes, runWrites_app.
    destruct (runWrites (map _ (List.filter (selects section) groups)) d)
      as [[err | ] d']; [ reflexivity | ].
    simpl. rewrite IH.
    destruct (existsb (selects section) groups); simpl; [ reflexivity | ].
    destruct (runWrites _ d') as [[err | ] d'']; [ reflexivity | ].
    now rewrite <- app_assoc.
Qed.

(** [parseSectionFromSchema] performs exactly the writes of [decodeWrites],
    in that order, and stops at the first one the schema refuses. *)
Lemma parseSectionFromSchema_writes `{Framework} (sections : list Section)
  (d : ResourceData) (groups : list SectionGroup) :
  parseSectionFromSchema sections d groups =
    runWrites (decodeWrites sections groups) d.
Proof.
  unfold parseSectionFromSchema, decodeWrites.
  rewrite rangeSections_writes, runWrites_app.
  destruct (runWrites _ d) as [[err | ] d']; [ reflexivity | ].
  simpl. rewrite ProcessSections_map.
  now destruct (d_Set d' "section" _) as [[err | ] d''].
Qed.

(* ===================================================================== *)
(** ** What a matched section contributes                                *)
(* ===================================================================== *)

Lemma decodeAttrs_lookup (group : SectionGroup) (fields : list SectionField)
  (src : gmap string value) (k : string) :
  foldl (fun src field => matchedBy group field ∪ src) src fields !! k =
    match GFields group !! k with
    | Some n =>
        match last (List.filter (fun field => N_ field =? n) fields) with
        | Some field => Some (Value field)
        | None => src !! k
        end
    | None => src !! k
    end.
Proof.
  revert src. induction fields as [ | field fields IH]; intros src; cbn [foldl List.filter].
  - now destruct (GFields group !! k).
  - rewrite IH, lookup_union, matchedBy_lookup.
    destruct (GFields group !! k) as [n | ]; [ | now destruct (src !! k) ].
    rewrite (String.eqb_sym (N_ field) n).
    destruct (n =? N_ field).
    + rewrite last_cons.
      destruct (last (List.filter _ fields)); [ reflexivity | now destruct (src !! k) ].
    + destruct (last (List.filter _ fields)); [ reflexivity | now destruct (src !! k) ].
Qed.

Lemma isKnown_false (group : SectionGroup) (field : SectionField) :
  isKnown group field = false <->
  forall k : string, GFields group !! k <> Some (N_ field).
Proof.
  unfold isKnown. rewrite <- not_true_iff_false, existsb_exists. split.
  - intros Hn k Hk. apply Hn. exists (k, N_ field). split.
    + apply list_elem_of_In, elem_of_map_to_list. exact Hk.
    + apply String.eqb_refl.
  - intros Hall ([k n] & Hin & Heq). simpl in Heq.
    apply String.eqb_eq in Heq. subst n.
    apply list_elem_of_In, elem_of_map_to_list in Hin. now apply (Hall k).
Qed.

Lemma distinct_selectors_one_group (groups : list SectionGroup) (section : Section) :
  NoDup (map Selector groups) ->
  length (List.filter (selects section) groups) <= 1.
Proof.
  induction groups as [ | group groups IH]; intros Hnd; simpl; [ lia | ].
  apply NoDup_cons in Hnd as [Hnotin Hnd].
  destruct (selects section group) eqn:Hsel; [ | now apply IH ].
  assert (List.filter (selects section) groups = []) as ->; [ | simpl; lia ].
  clear IH Hnd. induction groups as [ | group' groups IH]; simpl; [ reflexivity | ].
  simpl in Hnotin. apply not_elem_of_cons in Hnotin as [Hne Hnotin].
  destruct (selects section group') eqn:Hsel'; [ | now apply IH ].
  exfalso. apply Hne. unfold selects in *.
  apply String.eqb_eq in Hsel, Hsel'. congruence.
Qed.

(** C2, as amended. [parseSectionFromSchema] compares every section's name
    with every group's selector by exact equality, in group-list order,
    and writes the section under every group that selects it (at most one
    when the selectors are pairwise distinct); the sections no group
    selects are written last under ["section"].  Under a selecting group
    the fields are partitioned: a field whose field-name key is a value of
    the group's field map sets the attributes mapped to that key (the last
    such field wins), and the remaining fields are rendered generically
    into the group's ["field"] list. *)
Theorem decode_group_matching `{Framework} (sections : list Section)
  (d : ResourceData) (groups : list SectionGroup) :
  parseSectionFromSchema sections d groups = runWrites (decodeWrites sections groups) d /\
  (forall (group : SectionGroup) (section : Section),
      groupSrc group section = decodeGroup group section /\
      decodeGroup group section !! "field" =
        Some (VMaps (map ProcessField_entry (leftoverFields group section))) /\
      (forall field : SectionField,
          In field (leftoverFields group section) <->
          In field (SFields section) /\
          forall k : string, GFields group !! k <> Some (N_ field)) /\
      (forall (k n : string) (field : SectionField),
          k <> "field" ->
          GFields group !! k = Some n ->
          last (List.filter (fun f => N_ f =? n) (SFields section)) = Some field ->
          decodeGroup group section !! k = Some (Value field))) /\
  (NoDup (map Selector groups) ->
   forall section : Section, length (List.filter (selects section) groups) <= 1).
Proof.
  split; [ apply parseSectionFromSchema_writes | split ].
  - intros group section. split; [ apply groupSrc_decodeGroup | split; [ | split ] ].
    + apply lookup_insert_eq.
    + intros field. unfold leftoverFields.
      rewrite filter_In, negb_true_iff, isKnown_false. reflexivity.
    + intros k n field Hk Hn Hlast. unfold decodeGroup.
      rewrite lookup_insert_ne by congruence.
      rewrite decodeAttrs_lookup, Hn, Hlast. reflexivity.
  - intros Hnd section. now apply distinct_selectors_one_group.
Qed.

Lemma decode_group_matching_witness :
  decodeGroup identificationGroup nameSection !! "firstname"
    = Some (VStr "Ada") /\
  length (List.filter (selects nameSection) identityGroups) <= 1.
Proof.
  destruct (@decode_group_matching plainFramework [nameSection] emptyData identityGroups)
    as (_ & Hgroup & Hone).
  split.
  - destruct (Hgroup identificationGroup nameSection)
      as (_ & _ & _ & Hattr).
    apply (Hattr "firstname" "firstname"
                 (plainField "string" "firstname" (VStr "Ada") "firstname"));
      [ discriminate | reflexivity | reflexivity ].
  - apply Hone. apply (bool_decide_unpack _). vm_compute. exact I.
Defined.

(** C2, as stated, fails: with two groups of the same selector the section
    is written under the second group as well, which the first-match
    reading leaves unset. *)
Lemma decode_first_match_counterexample :
  attrs (snd (@parseSectionFromSchema plainFramework [nameSection] emptyData twinGroups))
    !! "second"
  = Some (VList [VMap (<["field" := VMaps (map ProcessField_entry (SFields nameSection))]>
                         {[ "title" := VStr "Identification" ]})]) /\
  attrs (snd (@runWrites plainFramework (firstMatchWrites [nameSection] twinGroups) emptyData))
    !! "second" = None.
Proof. split; vm_compute; reflexivity. Qed.

(* ===================================================================== *)
(** ** Generic rendering                                                  *)
(* ===================================================================== *)

Lemma ProcessField_key_cases (field : SectionField) :
  (Type_ field = "menu" -> ProcessField_key field = "sex") /\
  (Type_ field = "URL" -> ProcessField_key field = "url") /\
  (Type_ field = "monthYear" -> ProcessField_key field = "month_year") /\
  (Type_ field = "cctype" -> ProcessField_key field = "card_type") /\
  (Type_ field = "concealed" ->
   (exists rest : string, N_ field = "TOTP_" +:+ rest) -> ProcessField_key field = "totp") /\
  (Type_ field = "concealed" ->
   ~ (exists rest : string, N_ field = "TOTP_" +:+ rest) ->
   ProcessField_key field = "concealed") /\
  (~ In (Type_ field) renamedKinds -> ProcessField_key field = Type_ field).
Proof.
  unfold ProcessField_key, HasPrefix.
  repeat split; try (intros ->; reflexivity).
  - intros -> Hp. apply prefix_app in Hp. simpl. now rewrite Hp.
  - intros -> Hp. simpl.
    destruct (String.prefix "TOTP_" (N_ field)) eqn:Hpre; [ | reflexivity ].
    apply prefix_app in Hpre. contradiction.
  - intros Hother. skip_cases Hother. reflexivity.
Qed.

(** The sections a decode leaves over end under ["section"]. *)
Lemma parseSectionFromSchema_leftover `{Framework} (sections : list Section)
  (d d' : ResourceData) (groups : list SectionGroup) :
  parseSectionFromSchema sections d groups = (None, d') ->
  attrs d' !! "section" =
    Some (VMaps (ProcessSections
                   (List.filter (fun section => negb (existsb (selects section) groups))
                                sections))).
Proof.
  unfold parseSectionFromSchema. rewrite rangeSections_writes.
  destruct (runWrites _ d) as [[err | ] d1]; [ discriminate | ].
  simpl. unfold d_Set. destruct (schemaCheck _ _); [ discriminate | ].
  intros [= <-]. apply lookup_insert_eq.
Qed.

Lemma parseSectionFromSchema_accepted `{Framework} (sections : list Section)
  (d : ResourceData) (groups : list SectionGroup) :
  (forall (k : string) (v : value), schemaCheck k v = None) ->
  fst (parseSectionFromSchema sections d groups) = None.
Proof.
  intros Hacc. rewrite parseSectionFromSchema_writes.
  now rewrite runWrites_accepted.
Qed.

(** C3, as amended. The sections no group selects are rendered in input
    order as [{name: title, field: [...]}]; every field of such a section,
    and every leftover field of a selected one, is rendered as the map
    [{name: displayText}] with [key] then set to the value, where [key] is
    [sex] for [menu], [url] for [URL], [month_year] for [monthYear],
    [card_type] for [cctype], for [concealed] either [totp] (the
    field-name key begins with [TOTP_]) or [concealed], and for every
    other kind the kind name itself, unchanged. *)
Theorem generic_rendering `{Framework} :
  (forall srcSections : list Section,
      ProcessSections srcSections =
        map (fun section =>
               <["field" := VMaps (ProcessField (SFields section))]>
                 ({[ "name" := VStr (STitle section) ]} : gmap string value))
            srcSections) /\
  (forall srcFields : list SectionField,
      ProcessField srcFields =
        map (fun field =>
               <[ProcessField_key field := Value field]>
                 ({[ "name" := VStr (Text field) ]} : gmap string value))
            srcFields) /\
  (forall field : SectionField,
      (Type_ field = "menu" -> ProcessField_key field = "sex") /\
      (Type_ field = "URL" -> ProcessField_key field = "url") /\
      (Type_ field = "monthYear" -> ProcessField_key field = "month_year") /\
      (Type_ field = "cctype" -> ProcessField_key field = "card_type") /\
      (Type_ field = "concealed" ->
       (exists rest : string, N_ field = "TOTP_" +:+ rest) ->
       ProcessField_key field = "totp") /\
      (Type_ field = "concealed" ->
       ~ (exists rest : string, N_ field = "TOTP_" +:+ rest) ->
       ProcessField_key field = "concealed") /\
      (~ In (Type_ field) renamedKinds -> ProcessField_key field = Type_ field)) /\
  (forall field : SectionField,
      ProcessField_entry field !! ProcessField_key field = Some (Value field) /\
      (ProcessField_key field <> "name" ->
       ProcessField_entry field !! "name" = Some (VStr (Text field)))) /\
  (forall (group : SectionGroup) (section : Section),
      groupSrc group section !! "field" =
        Some (VMaps (ProcessField (leftoverFields group section)))) /\
  (forall (sections : list Section) (d d' : ResourceData) (groups : list SectionGroup),
      parseSectionFromSchema sections d groups = (None, d') ->
      attrs d' !! "section" =
        Some (VMaps (ProcessSections
                       (List.filter (fun section => negb (existsb (selects section) groups))
                                    sections)))) /\
  (forall (sections : list Section) (d : ResourceData) (groups : list SectionGroup),
      (forall (k : string) (v : value), schemaCheck k v = None) ->
      fst (parseSectionFromSchema sections d groups) = None).
Proof.
  repeat apply conj.
  - intros srcSections. rewrite ProcessSections_map. apply map_ext.
    intros s. unfold renderSection. now rewrite ProcessField_map.
  - intros srcFields. apply ProcessField_map.
  - apply ProcessField_key_cases.
  - intros field. unfold ProcessField_entry. split.
    + apply lookup_insert_eq.
    + intros Hne. rewrite lookup_insert_ne by exact Hne. apply lookup_singleton_eq.
  - intros group section. rewrite groupSrc_decodeGroup, ProcessField_map.
    apply lookup_insert_eq.
  - intros sections d d' groups. apply parseSectionFromSchema_leftover.
  - intros sections d groups. apply parseSectionFromSchema_accepted.
Qed.

Lemma generic_rendering_witness :
  exists d' : ResourceData,
    @parseSectionFromSchema plainFramework [nameSection; looseSection] emptyData
       identityGroups = (None, d') /\
    attrs d' !! "section" =
      Some (VList [ VMap (<["field" :=
                             VList [ VMap (<["totp" := VStr "otp"]>
                                             {[ "name" := VStr "one-time" ]});
                                     VMap (<["concealed" := VStr "secret"]>
                                             {[ "name" := VStr "note" ]}) ]]>
                            {[ "name" := VStr "Extra" ]}) ]).
Proof.
  destruct (@generic_rendering plainFramework) as (_ & _ & _ & _ & _ & Hleft & Hacc).
  pose proof (Hacc [nameSection; looseSection] emptyData identityGroups
                (fun _ _ => eq_refl)) as Hok.
  destruct (@parseSectionFromSchema plainFramework [nameSection; looseSection] emptyData
              identityGroups) as [err d'] eqn:Hparse.
  simpl in Hok. subst err. exists d'. split; [ reflexivity | ].
  rewrite (Hleft _ _ _ _ Hparse). vm_compute. reflexivity.
Defined.

(** C3, as stated, fails: a field of kind [Custom] is rendered under the
    key [Custom]; the lower-cased kind name is not a key of its
    rendering. *)
Lemma generic_lowercase_counterexample :
  let field := plainField "Custom" "label" (VStr "v") "n1" in
  lowercaseKey field = "custom" /\
  ProcessField [field] = [ <["Custom" := VStr "v"]> {[ "name" := VStr "label" ]} ] /\
  ProcessField_entry field !! "custom" = None.
Proof. repeat split; vm_compute; reflexivity. Qed.

(** A kind literally called [name] overwrites the display text. *)
Example name_kind_rendering :
  ProcessField [plainField "name" "label" (VStr "v") "n1"] = [ {[ "name" := VStr "v" ]} ].
Proof. vm_compute. reflexivity. Qed.

(* ===================================================================== *)
(** ** The identity round trip                                            *)
(* ===================================================================== *)

Lemma unknown_fields_unmatched (group : SectionGroup) (fields : list SectionField)
  (k n : string) :
  Forall (fun field => isKnown group field = false) fields ->
  GFields group !! k = Some n ->
  List.filter (fun field => N_ field =? n) fields = [].
Proof.
  intros Hall Hk. induction Hall as [ | field fields Hf _ IH]; simpl; [ reflexivity | ].
  destruct (String.eqb_spec (N_ field) n) as [Heq | _]; [ | exact IH ].
  exfalso. apply (proj1 (isKnown_false group field) Hf k). congruence.
Qed.





(* ===================================================================== *)
(** ** More on the registry                                               *)
(* ===================================================================== *)

(** X1. The round trip in the other direction: each of the eighteen
    template identifiers is given back by [Category2Template] after
    [Template2Category]. *)
Theorem templates_round_trip (t : string) :
  In t templates -> Category2Template (Template2Category t) = t.
Proof. intros H. unfold templates in H. simpl in H. in_cases H; reflexivity. Qed.

Lemma templates_round_trip_witness :
  In "006" templates /\ Category2Template (Template2Category "006") = "006".
Proof.
  split; [ simpl; tauto | apply (templates_round_trip "006"); simpl; tauto ].
Defined.

(** X2. [Template2Category] returns a category other than the sentinel
    exactly on the eighteen identifiers, and then a category of the
    registry. *)
Theorem template_recognised (t : string) :
  (Template2Category t <> UnknownCategory <-> In t templates) /\
  (Template2Category t <> UnknownCategory -> In (Template2Category t) registry).
Proof.
  assert (In t templates -> In (Template2Category t) registry /\
                            Template2Category t <> UnknownCategory) as Hin.
  { intros H. unfold templates in H. simpl in H.
    in_cases H; (split; [ simpl; tauto | discriminate ]). }
  assert (~ In t templates -> Template2Category t = UnknownCategory) as Hout.
  { intros H. unfold Template2Category. skip_cases H. reflexivity. }
  destruct (in_dec string_dec t templates) as [Ht | Ht].
  - destruct (Hin Ht) as [Hreg Hne]. repeat split; tauto.
  - specialize (Hout Ht). repeat split; intros; try contradiction; congruence.
Qed.

Lemma template_recognised_witness :
  In (Template2Category "004") registry /\ ~ In "4" templates.
Proof.
  destruct (template_recognised "004") as [_ H4].
  destruct (template_recognised "4") as [H _].
  split.
  - apply H4. discriminate.
  - intros Hin. apply H in Hin. apply Hin. reflexivity.
Defined.

(** X3. No two categories of the registry share a template identifier. *)
Theorem Category2Template_injective (c1 c2 : Category) :
  In c1 registry -> In c2 registry ->
  Category2Template c1 = Category2Template c2 -> c1 = c2.
Proof.
  intros H1 H2. unfold registry in H1, H2. simpl in H1, H2.
  in_cases H1; in_cases H2; intros Heq; (reflexivity || discriminate Heq).
Qed.

Lemma Category2Template_injective_witness :
  Category2Template LoginCategory <> Category2Template PasswordCategory.
Proof.
  intros Heq.
  assert (LoginCategory = PasswordCategory) as Habs;
    [ apply (Category2Template_injective LoginCategory PasswordCategory);
      [ simpl; tauto | simpl; tauto | exact Heq ]
    | discriminate Habs ].
Defined.

(** X4. Outside the registry the round trip collapses to the sentinel:
    a category the table does not know comes back as [UnknownCategory]. *)
Theorem unknown_category_collapses (c : Category) :
  ~ In c registry ->
  Template2Category (Category2Template c) = UnknownCategory.
Proof.
  intros H. replace (Category2Template c) with "000"; [ reflexivity | ].
  unfold Category2Template, registry in *. skip_cases H. reflexivity.
Qed.

Lemma unknown_category_collapses_witness :
  Template2Category (Category2Template "Gift Card") = UnknownCategory.
Proof.
  apply (unknown_category_collapses "Gift Card").
  simpl. intros H. in_cases H; discriminate.
Defined.

(* ===================================================================== *)
(** ** More on the item operations                                        *)
(* ===================================================================== *)

Lemma ReadItem_trace `{Client} (id vaultID : string) (w : list Invocation) :
  snd (ReadItem id vaultID w) =
    (w ++ [ {| stdin := None; argv := ReadItem_args id vaultID |} ])%list.
Proof.
  unfold ReadItem, RunSimpleCmd.
  destruct (op w _) as [res [err | ]].
  - now destruct (itemNotFound _ err).
  - now destruct (json_Unmarshal res).
Qed.

Lemma ReadDocument_trace `{Client} (id : string) (w : list Invocation) :
  snd (ReadDocument id w) =
    (w ++ [ {| stdin := None; argv := ["get"; "document"; id] |} ])%list.
Proof.
  unfold ReadDocument, RunSimpleCmd.
  change [opPasswordGet; DocumentResource; id] with ["get"; "document"; id].
  now destruct (op w _) as [res [err | ]].
Qed.

(** X5. [ReadItem] runs the binary exactly once, without standard input,
    as [get item <id>] followed by [--vault=<vault>] only when the vault
    is not empty; it never returns an item together with an error. *)
Theorem ReadItem_shape `{Client} (id vaultID : string) (w : list Invocation) :
  snd (ReadItem id vaultID w) =
    (w ++ [ {| stdin := None; argv := ReadItem_args id vaultID |} ])%list /\
  ReadItem_args id vaultID =
    (if vaultID =? "" then ["get"; "item"; id]
     else ["get"; "item"; id; "--vault=" +:+ vaultID]) /\
  (forall v : Item,
      fst (fst (ReadItem id vaultID w)) = Some v ->
      snd (fst (ReadItem id vaultID w)) = None).
Proof.
  unfold ReadItem, RunSimpleCmd.
  destruct (op w _) as [res [err | ]].
  - destruct (itemNotFound _ err); simpl; repeat split;
      try (unfold ReadItem_args; now destruct (vaultID =? "")); discriminate.
  - destruct (json_Unmarshal res); simpl; repeat split;
      try (unfold ReadItem_args; now destruct (vaultID =? "")); discriminate.
Qed.

Lemma ReadItem_shape_witness :
  let v := sampleItem "004" None in
  snd (@ReadItem (itemClient v []) "u1" "v1" []) =
    [ {| stdin := None; argv := ["get"; "item"; "u1"; "--vault=v1"] |} ] /\
  snd (fst (@ReadItem (itemClient v []) "u1" "v1" [])) = None.
Proof.
  intros v.
  destruct (@ReadItem_shape (itemClient v []) "u1" "v1" []) as (Htrace & Hargs & Hexcl).
  split.
  - rewrite Htrace, Hargs. reflexivity.
  - apply (Hexcl v). reflexivity.
Defined.

(** X6. [CreateItem] refuses an item whose details cannot be serialised
    or whose template is not one of the registry before anything is run:
    it returns an error, the item as it was and no new invocation. *)
Theorem CreateItem_refuses_before_running `{Client} (v : Item) (w : list Invocation) :
  (exists e : error, json_Marshal (Details_ v) = inl e) \/
  Template2Category (Template v) = UnknownCategory ->
  exists e : error, CreateItem v w = ((Some e, v), w).
Proof.
  intros [[e He] | Hunknown]; unfold CreateItem.
  - rewrite He. eauto.
  - destruct (json_Marshal (Details_ v)) as [e | details]; [ eauto | ].
    rewrite Hunknown. simpl. eauto.
Qed.

Lemma CreateItem_refuses_before_running_witness :
  exists e : error,
    @CreateItem (constClient [] None) (sampleItem "999" None) [] =
      ((Some e, sampleItem "999" None), []).
Proof.
  apply (@CreateItem_refuses_before_running (constClient [] None)).
  right. reflexivity.
Defined.

(** X7. [CreateItem] changes nothing of the item but its UUID, and that
    only when it returns no error; it runs the binary at most once, never
    with standard input. *)
Theorem CreateItem_preserves `{Client} (v : Item) (w : list Invocation) :
  let r := CreateItem v w in
  (snd (fst r) = v \/ exists id : string, snd (fst r) = set_UUID id v) /\
  (fst (fst r) <> None -> snd (fst r) = v) /\
  (snd r = w \/
   exists args : list string, snd r = (w ++ [ {| stdin := None; argv := args |} ])%list).
Proof.
  unfold CreateItem, RunSimpleCmd.
  destruct (json_Marshal (Details_ v)) as [e | details]; simpl; [ tauto | ].
  destruct (Template2Category (Template v) =? UnknownCategory); simpl; [ tauto | ].
  destruct (op w _) as [res [err | ]]; simpl.
  - repeat split; eauto.
  - destruct (getResultID res) as [e | id]; simpl; repeat split; eauto.
    intros Hne. now contradiction Hne.
Qed.

Lemma CreateItem_preserves_witness :
  let v := sampleItem "004" None in
  snd (fst (@CreateItem (constClient [] (Some (ExitError 1))) v [])) = v.
Proof.
  intros v.
  destruct (@CreateItem_preserves (constClient [] (Some (ExitError 1))) v [])
    as (_ & Herr & _).
  apply Herr. discriminate.
Defined.

(** X8. An item whose template is that of a category [c] is created only
    for a category of the registry: then the binary is run with [c] as
    its third argument; for any other [c] the template is ["000"] and the
    call stops with "unknown template id 000" before anything is run. *)
Theorem CreateItem_by_category `{Client} (c : Category) (v : Item)
  (w : list Invocation) (details : list byte) :
  Template v = Category2Template c ->
  json_Marshal (Details_ v) = inr details ->
  (In c registry ->
   snd (CreateItem v w) =
     (w ++ [ {| stdin := None;
                argv := CreateItem_args v c (base64url_Encode details) |} ])%list /\
   firstn 3 (CreateItem_args v c (base64url_Encode details)) = ["create"; "item"; c]) /\
  (~ In c registry ->
   CreateItem v w = ((Some (ErrNew "unknown template id 000"), v), w)).
Proof.
  intros Ht Hm. unfold CreateItem. rewrite Hm, Ht. split.
  - intros Hin.
    assert (Template2Category (Category2Template c) = c) as ->
      by (unfold registry in Hin; simpl in Hin; in_cases Hin; reflexivity).
    assert ((c =? UnknownCategory) = false) as ->
      by (unfold registry in Hin; simpl in Hin; in_cases Hin; reflexivity).
    unfold RunSimpleCmd. split; [ | reflexivity ].
    destruct (op w _) as [res [err | ]]; [ reflexivity | ].
    now destruct (getResultID res).
  - intros Hout.
    assert (Category2Template c = "000") as ->
      by (unfold Category2Template, registry in *; skip_cases Hout; reflexivity).
    reflexivity.
Qed.

Lemma CreateItem_by_category_witness :
  @CreateItem (constClient [] None) (sampleItem (Category2Template "Gift Card") None) [] =
    ((Some (ErrNew "unknown template id 000"),
      sampleItem (Category2Template "Gift Card") None), []).
Proof.
  refine (proj2 (@CreateItem_by_category (constClient [] None) "Gift Card"
                   (sampleItem (Category2Template "Gift Card") None) [] []
                   eq_refl eq_refl) _).
  simpl. intros H. in_cases H; discriminate.
Defined.

(** X9. [CreateDocument] with document attributes runs the binary exactly
    once, with the content on standard input; it changes nothing of the
    item but its UUID, and that only when it returns no error. *)
Theorem CreateDocument_preserves `{Client} (v : Item) (content : list byte)
  (w : list Invocation) (da : DocumentAttributes) :
  DocumentAttributes_ (Details_ v) = Some da ->
  exists (err : option error) (v' : Item),
    CreateDocument v content w =
      Some ((err, v'),
            (w ++ [ {| stdin := Some content; argv := CreateDocument_args v da |} ])%list) /\
    (v' = v \/ exists id : string, v' = set_UUID id v) /\
    (err <> None -> v' = v).
Proof.
  intros Hda. unfold CreateDocument, RunStdinCmd. rewrite Hda.
  destruct (op w _) as [res [err | ]].
  - eexists _, _. repeat split; eauto.
  - destruct (getResultID res) as [e | id]; eexists _, _; repeat split; eauto;
      intros Hne; now contradiction Hne.
Qed.

Lemma CreateDocument_preserves_witness :
  let v := sampleItem "006" (Some {| FileName := "a.txt" |}) in
  exists (err : option error) (v' : Item),
    @CreateDocument (constClient [] (Some (ExitError 1))) v [x41%byte] [] =
      Some ((err, v'),
            [ {| stdin := Some [x41%byte];
                 argv := CreateDocument_args v {| FileName := "a.txt" |} |} ]) /\
    (v' = v \/ exists id : string, v' = set_UUID id v) /\
    (err <> None -> v' = v).
Proof.
  intros v.
  apply (@CreateDocument_preserves (constClient [] (Some (ExitError 1))) v [x41%byte] []
           {| FileName := "a.txt" |}).
  reflexivity.
Defined.

(** X10. [ReadDocument] runs [get document <id>] exactly once and hands
    back the output of the binary whether or not the command failed; its
    error is nil exactly when the command's is. *)
Theorem ReadDocument_shape `{Client} (id : string) (w : list Invocation) :
  let i := {| stdin := None; argv := ["get"; "document"; id] |} in
  snd (ReadDocument id w) = (w ++ [i])%list /\
  fst (fst (ReadDocument id w)) = fst (op w i) /\
  (snd (fst (ReadDocument id w)) = None <-> snd (op w i) = None).
Proof.
  unfold ReadDocument, RunSimpleCmd. simpl.
  change [opPasswordGet; DocumentResource; id] with ["get"; "document"; id].
  destruct (op w _) as [res [err | ]]; simpl; repeat split; auto; discriminate.
Qed.

Lemma ReadDocument_shape_witness :
  fst (fst (@ReadDocument (constClient [x41%byte] (Some (ExitError 1))) "u1" [])) =
    [x41%byte] /\
  snd (fst (@ReadDocument (constClient [x41%byte] None) "u1" [])) = None.
Proof.
  split.
  - destruct (@ReadDocument_shape (constClient [x41%byte] (Some (ExitError 1))) "u1" [])
      as (_ & Hout & _).
    rewrite Hout. reflexivity.
  - destruct (@ReadDocument_shape (constClient [x41%byte] None) "u1" [])
      as (_ & _ & Herr).
    apply Herr. reflexivity.
Defined.

(* ===================================================================== *)
(** ** More on the typed reads                                            *)
(* ===================================================================== *)

Lemma runWrites_accepted_each `{Framework} (ws : list (string * value)) (d : ResourceData) :
  Forall (fun kv : string * value => schemaCheck (fst kv) (snd kv) = None) ws ->
  runWrites ws d =
    (None, {| Id := Id d;
              attrs := foldl (fun m kv => <[fst kv := snd kv]> m) (attrs d) ws |}).
Proof.
  intros Hall. revert d. induction Hall as [ | [k v] ws Hkv _ IH]; intros d; simpl.
  - now destruct d.
  - unfold d_Set. simpl in Hkv. rewrite Hkv, IH. reflexivity.
Qed.

(** The attributes a decode writes: the names of the groups, and
    ["section"]. *)
Lemma decodeWrites_keys (sections : list Section) (groups : list SectionGroup) (k : string) :
  In k (map fst (decodeWrites sections groups)) ->
  k = "section" \/ In k (map GName groups).
Proof.
  unfold decodeWrites. rewrite map_app, in_app_iff. intros [Hin | Hin].
  - right. apply in_map_iff in Hin as ([k' v] & <- & Hin).
    apply in_flat_map in Hin as (section & _ & Hin).
    apply in_map_iff in Hin as (group & [= <- _] & Hg).
    apply filter_In in Hg as [Hg _]. simpl. now apply in_map.
  - left. simpl in Hin. destruct Hin as [<- | []]. reflexivity.
Qed.

(** A decode whose writes the schema accepts succeeds and touches no
    other attribute. *)
Lemma parseSectionFromSchema_frame `{Framework} (sections : list Section)
  (d : ResourceData) (groups : list SectionGroup) :
  (forall (k : string) (v : value),
      k = "section" \/ In k (map GName groups) -> schemaCheck k v = None) ->
  exists d' : ResourceData,
    parseSectionFromSchema sections d groups = (None, d') /\
    Id d' = Id d /\
    (forall k : string,
        k <> "section" -> ~ In k (map GName groups) -> attrs d' !! k = attrs d !! k).
Proof.
  intros Hacc. rewrite parseSectionFromSchema_writes, runWrites_accepted_each.
  - eexists. split; [ reflexivity | split; [ reflexivity | ] ].
    intros k Hs Hg. simpl. apply writes_preserve.
    intros Hin. apply decodeWrites_keys in Hin. tauto.
  - apply Forall_forall. intros [k v] Hin. simpl. apply Hacc.
    apply (decodeWrites_keys sections groups k).
    apply in_map_iff. exists (k, v). split; [ reflexivity | now apply list_elem_of_In ].
Qed.

(** X11. A successful identity read: with every write but that of
    [archived] accepted, a fetched item of the Identity template gives no
    diagnostics and one invocation; the record gets the item's UUID as
    id, its title, tags, vault and notes, and the sections no identity
    group selects under ["section"].  The error of the [archived] write
    is dropped: if the schema refuses it the read still succeeds and
    [archived] keeps its old value, otherwise it is true exactly when the
    item's [trashed] is ["Y"]. *)
Theorem identity_read_success `{Framework} `{Client}
  (d : ResourceData) (w w' : list Invocation) (vaultID : string) (v : Item) :
  (forall (k : string) (x : value), k <> "archived" -> schemaCheck k x = None) ->
  d_GetString d "vault" = Some vaultID ->
  ReadItem (getID d) vaultID w = ((Some v, None), w') ->
  Template v = Category2Template IdentityCategory ->
  exists d' : ResourceData,
    resourceItemIdentityRead d w = Some ([], d', w') /\
    Id d' = UUID v /\
    attrs d' !! "name" = Some (VStr (OTitle (Overview_ v))) /\
    attrs d' !! "tags" = Some (VList (map VStr (Tags (Overview_ v)))) /\
    attrs d' !! "vault" = Some (VStr (Vault v)) /\
    attrs d' !! "notes" = Some (VStr (Notes (Details_ v))) /\
    attrs d' !! "section" =
      Some (VMaps (ProcessSections
                     (List.filter
                        (fun section => negb (existsb (selects section) identityGroups))
                        (Sections (Details_ v))))) /\
    attrs d' !! "archived" =
      match schemaCheck "archived" (VBool (Trashed v =? IsTrashed)) with
      | None => Some (VBool (Trashed v =? IsTrashed))
      | Some _ => attrs d !! "archived"
      end.
Proof.
  intros Hacc Hvault Hread Ht.
  unfold resourceItemIdentityRead. rewrite Hvault. simpl. rewrite Hread, Ht.
  rewrite String.eqb_refl. simpl.
  unfold d_Set at 1. rewrite (Hacc "name") by discriminate. simpl.
  unfold d_Set at 1. rewrite (Hacc "tags") by discriminate. simpl.
  unfold d_Set at 1. rewrite (Hacc "vault") by discriminate. simpl.
  unfold d_Set at 1. rewrite (Hacc "notes") by discriminate. simpl.
  match goal with
  | |- context [parseSectionFromSchema ?ss ?d4 identityGroups] =>
      destruct (parseSectionFromSchema_frame ss d4 identityGroups)
        as (d5 & Hparse & Hid & Hframe);
      [ intros k x [-> | Hk]; apply Hacc;
        [ discriminate
        | simpl in Hk; destruct Hk as [<- | [<- | [<- | []]]]; discriminate ]
      | pose proof (parseSectionFromSchema_leftover ss d4 d5 identityGroups Hparse)
          as Hsection;
        rewrite Hparse ]
  end.
  simpl in Hid, Hframe. simpl.
  assert (forall k : string,
             In k ["name"; "tags"; "vault"; "notes"; "archived"] ->
             k <> "section" /\ ~ In k (map GName identityGroups)) as Hkeys.
  { intros k Hk. simpl in Hk. simpl.
    destruct Hk as [<- | [<- | [<- | [<- | [<- | []]]]]];
      (split; [ discriminate | intros Hin; in_cases Hin; discriminate ]). }
  unfold d_Set. destruct (schemaCheck "archived" _) as [e | ]; simpl.
  - exists d5. split; [ reflexivity | split; [ exact Hid | ] ].
    rewrite (Hframe "name"), (Hframe "tags"), (Hframe "vault"), (Hframe "notes"),
      (Hframe "archived") by (apply Hkeys; simpl; tauto).
    repeat split; try exact Hsection.
    + rewrite !lookup_insert_ne by discriminate. apply lookup_insert_eq.
    + rewrite !lookup_insert_ne by discriminate. apply lookup_insert_eq.
    + rewrite !lookup_insert_ne by discriminate. apply lookup_insert_eq.
    + apply lookup_insert_eq.
    + now rewrite !lookup_insert_ne by discriminate.
  - eexists. split; [ reflexivity | split; [ exact Hid | ] ]. simpl.
    rewrite !(lookup_insert_ne _ "archived") by discriminate.
    rewrite (Hframe "name"), (Hframe "tags"), (Hframe "vault"), (Hframe "notes")
      by (apply Hkeys; simpl; tauto).
    repeat split; try exact Hsection.
    + rewrite !lookup_insert_ne by discriminate. apply lookup_insert_eq.
    + rewrite !lookup_insert_ne by discriminate. apply lookup_insert_eq.
    + rewrite !lookup_insert_ne by discriminate. apply lookup_insert_eq.
    + apply lookup_insert_eq.
    + apply lookup_insert_eq.
Qed.

Lemma identity_read_success_witness :
  exists d' : ResourceData,
    @resourceItemIdentityRead strictFramework
       (itemClient (sampleItem "004" None) []) emptyData [] =
      Some ([], d', [ {| stdin := None; argv := ["get"; "item"; "u1"] |} ]) /\
    Id d' = "u1" /\
    attrs d' !! "name" = Some (VStr "sample") /\
    attrs d' !! "archived" = None.
Proof.
  destruct (@identity_read_success strictFramework
              (itemClient (sampleItem "004" None) []) emptyData []
              [ {| stdin := None; argv := ["get"; "item"; "u1"] |} ] ""
              (sampleItem "004" None))
    as (d' & Hread & Hid & Hname & _ & _ & _ & _ & Harch).
  - intros k x Hk. simpl. destruct (String.eqb_spec k "archived"); [ contradiction | reflexivity ].
  - reflexivity.
  - reflexivity.
  - reflexivity.
  - exists d'. repeat split; assumption.
Defined.

(** X12. A hard error of [ReadItem] ends both typed reads with that error
    as the only diagnostic and the record untouched. *)
Theorem reads_propagate_error `{Framework} `{Client}
  (d : ResourceData) (w w' : list Invocation) (vaultID : string) (e : error) :
  d_GetString d "vault" = Some vaultID ->
  ReadItem (getID d) vaultID w = ((None, Some e), w') ->
  resourceItemIdentityRead d w = Some ([e], d, w') /\
  resourceItemDocumentRead d w = Some ([e], d, w').
Proof.
  intros Hvault Hread. split.
  - unfold resourceItemIdentityRead. rewrite Hvault. simpl. now rewrite Hread.
  - unfold resourceItemDocumentRead. rewrite Hvault. simpl. now rewrite Hread.
Qed.

Lemma reads_propagate_error_witness :
  let e := prettyError ["get"; "item"; "u1"] [] (ExitError 2) in
  let w' := [ {| stdin := None; argv := ["get"; "item"; "u1"] |} ] in
  @resourceItemIdentityRead plainFramework (constClient [] (Some (ExitError 2))) emptyData []
    = Some ([e], emptyData, w') /\
  @resourceItemDocumentRead plainFramework (constClient [] (Some (ExitError 2))) emptyData []
    = Some ([e], emptyData, w').
Proof.
  intros e w'.
  apply (@reads_propagate_error plainFramework (constClient [] (Some (ExitError 2)))
           emptyData [] w' "" e); reflexivity.
Defined.

(** X13. When the item is fetched but the document is not, the document
    read returns the fetch error after the record has already been given
    the item's id, title, tags, vault and file name; [content] and
    [content_base64] keep their old values. *)
Theorem document_read_fetch_failure `{Framework} `{Client}
  (d : ResourceData) (w w1 w2 : list Invocation) (vaultID : string)
  (v : Item) (da : DocumentAttributes) (B : list byte) (e : error) :
  (forall (k : string) (x : value), k <> "archived" -> schemaCheck k x = None) ->
  d_GetString d "vault" = Some vaultID ->
  ReadItem (getID d) vaultID w = ((Some v, None), w1) ->
  Template v = Category2Template DocumentCategory ->
  DocumentAttributes_ (Details_ v) = Some da ->
  ReadDocument (UUID v) w1 = ((B, Some e), w2) ->
  exists d' : ResourceData,
    resourceItemDocumentRead d w = Some ([e], d', w2) /\
    Id d' = UUID v /\
    attrs d' !! "name" = Some (VStr (OTitle (Overview_ v))) /\
    attrs d' !! "tags" = Some (VList (map VStr (Tags (Overview_ v)))) /\
    attrs d' !! "vault" = Some (VStr (Vault v)) /\
    attrs d' !! "filename" = Some (VStr (FileName da)) /\
    attrs d' !! "content" = attrs d !! "content" /\
    attrs d' !! "content_base64" = attrs d !! "content_base64".
Proof.
  intros Hacc Hvault Hread Ht Hda Hdoc.
  rewrite (document_read_reaches_dereference d w w1 vaultID v)
    by (try assumption; apply Hacc; discriminate).
  rewrite Hda. simpl. unfold d_Set at 1.
  rewrite (Hacc "filename") by discriminate. simpl.
  rewrite Hdoc. unfold d_Set.
  destruct (schemaCheck "archived" _) as [e' | ]; simpl;
    (eexists; split; [ reflexivity | ]; simpl;
     repeat split;
     rewrite ?(lookup_insert_ne _ "archived") by discriminate;
     rewrite ?(lookup_insert_ne _ "filename") by discriminate;
     first [ apply lookup_insert_eq
           | rewrite !lookup_insert_ne by discriminate; first [ apply lookup_insert_eq | reflexivity ] ]).
Qed.

Lemma document_read_fetch_failure_witness :
  let v := sampleItem "006" (Some {| FileName := "a.txt" |}) in
  exists d' : ResourceData,
    @resourceItemDocumentRead plainFramework (noDocumentClient v []) emptyData [] =
      Some ([prettyError ["get"; "document"; "u1"] [] (ExitError 1)], d',
            [ {| stdin := None; argv := ["get"; "item"; "u1"] |};
              {| stdin := None; argv := ["get"; "document"; "u1"] |} ]) /\
    Id d' = "u1" /\
    attrs d' !! "filename" = Some (VStr "a.txt") /\
    attrs d' !! "content" = None.
Proof.
  intros v.
  destruct (@document_read_fetch_failure plainFramework (noDocumentClient v []) emptyData []
              [ {| stdin := None; argv := ["get"; "item"; "u1"] |} ]
              [ {| stdin := None; argv := ["get"; "item"; "u1"] |};
                {| stdin := None; argv := ["get"; "document"; "u1"] |} ]
              "" v {| FileName := "a.txt" |} []
              (prettyError ["get"; "document"; "u1"] [] (ExitError 1)))
    as (d' & Hread & Hid & _ & _ & _ & Hfile & Hcontent & _); try reflexivity.
  exists d'. repeat split; assumption.
Defined.

(** X14. The document read runs [get item] once and [get document] at
    most once, the latter only for a fetched item of the Document
    template, under that item's UUID. *)
Theorem document_read_trace `{Framework} `{Client}
  (d d' : ResourceData) (w w' : list Invocation) (diags : Diagnostics) :
  resourceItemDocumentRead d w = Some (diags, d', w') ->
  exists vaultID : string,
    d_GetString d "vault" = Some vaultID /\
    let i := {| stdin := None; argv := ReadItem_args (getID d) vaultID |} in
    (w' = (w ++ [i])%list \/
     exists v : Item,
       fst (fst (ReadItem (getID d) vaultID w)) = Some v /\
       Template v = Category2Template DocumentCategory /\
       w' = (w ++ [i; {| stdin := None; argv := ["get"; "document"; UUID v] |} ])%list).
Proof.
  unfold resourceItemDocumentRead.
  destruct (d_GetString d "vault") as [vaultID | ]; simpl; [ | discriminate ].
  intros Hres. exists vaultID. split; [ reflexivity | ].
  pose proof (ReadItem_trace (getID d) vaultID w) as Htrace.
  destruct (ReadItem (getID d) vaultID w) as [[item err] w1]. simpl in Htrace. subst w1.
  destruct err as [err | ]; [ left; now injection Hres | ].
  destruct item as [v | ]; [ | left; now injection Hres ].
  destruct (String.eqb_spec (Template v) (Category2Template DocumentCategory)) as [Ht | _];
    simpl in Hres; [ | left; now injection Hres ].
  unfold orFail, d_Set in Hres.
  repeat match type of Hres with
         | context [schemaCheck ?k ?x] =>
             destruct (schemaCheck k x); simpl in Hres;
             try (left; now injection Hres)
         | context [DocumentAttributes_ ?x] =>
             destruct (DocumentAttributes_ x); [ | discriminate Hres ]
         end;
    try (pose proof (ReadDocument_trace (UUID v)
                       (w ++ [ {| stdin := None;
                                  argv := ReadItem_args (getID d) vaultID |} ])%list)
           as Hdoc;
         destruct (ReadDocument _ _) as [[content err] w2]; simpl in Hdoc; subst w2;
         right; exists v; split; [ reflexivity | split; [ exact Ht | ] ];
         rewrite <- app_assoc in Hres; simpl in Hres;
         destruct err; simpl in Hres;
         repeat match type of Hres with
                | context [schemaCheck ?k ?x] => destruct (schemaCheck k x); simpl in Hres
                end;
         now injection Hres).
Qed.

Lemma document_read_trace_witness :
  exists vaultID : string,
    d_GetString emptyData "vault" = Some vaultID /\
    let v := sampleItem "006" (Some {| FileName := "a.txt" |}) in
    let i := {| stdin := None; argv := @ReadItem_args "u1" vaultID |} in
    ([ {| stdin := None; argv := ["get"; "item"; "u1"] |};
       {| stdin := None; argv := ["get"; "document"; "u1"] |} ] = ([] ++ [i])%list \/
     exists v' : Item,
       fst (fst (@ReadItem (itemClient v []) "u1" vaultID [])) = Some v' /\
       Template v' = Category2Template DocumentCategory /\
       [ {| stdin := None; argv := ["get"; "item"; "u1"] |};
         {| stdin := None; argv := ["get"; "document"; "u1"] |} ] =
         ([] ++ [i; {| stdin := None; argv := ["get"; "document"; UUID v'] |} ])%list).
Proof.
  destruct (@resourceItemDocumentRead plainFramework
              (itemClient (sampleItem "006" (Some {| FileName := "a.txt" |})) [])
              emptyData []) as [[[diags d'] w'] | ] eqn:Hread;
    [ | vm_compute in Hread; discriminate Hread ].
  assert (w' = [ {| stdin := None; argv := ["get"; "item"; "u1"] |};
                 {| stdin := None; argv := ["get"; "document"; "u1"] |} ]) as Hw
    by (vm_compute in Hread; now injection Hread).
  rewrite <- Hw.
  exact (@document_read_trace plainFramework
           (itemClient (sampleItem "006" (Some {| FileName := "a.txt" |})) [])
           emptyData d' [] w' diags Hread).
Defined.

(* ===================================================================== *)
(** ** More on the decode direction                                       *)
(* ===================================================================== *)

(** X15. Go visits the entries of [group.Fields] in an unspecified order,
    possibly a different one for every field of the section; whatever the
    orders, the loop over the fields of a selected section computes the
    same attribute map and the same leftover fields. *)
Theorem map_order_irrelevant (group : SectionGroup) (fields : list SectionField)
  (st : gmap string value * list SectionField)
  (order : SectionField -> list (string * string)) :
  (forall field : SectionField, order field ≡ₚ map_to_list (GFields group)) ->
  foldl (fun st field =>
           let r := rangeGroupFields (order field) field (fst st, false) in
           (fst r, if snd r then snd st else (snd st ++ [field])%list))
        st fields
  = rangeSectionFields group fields st.
Proof.
  intros Horder. unfold rangeSectionFields. revert st.
  induction fields as [ | field fields IH]; intros st; cbn [foldl]; [ reflexivity | ].
  rewrite (rangeGroupFields_order _ _ field (fst st) false (Horder field)).
  apply IH.
Qed.

Lemma map_order_irrelevant_witness :
  foldl (fun st field =>
           let r := rangeGroupFields (reverse (map_to_list (GFields identificationGroup)))
                      field (fst st, false) in
           (fst r, if snd r then snd st else (snd st ++ [field])%list))
        ({[ "title" := VStr "Identification" ]}, []) (SFields nameSection)
  = rangeSectionFields identificationGroup (SFields nameSection)
      ({[ "title" := VStr "Identification" ]}, []).
Proof.
  apply (map_order_irrelevant identificationGroup (SFields nameSection)
           ({[ "title" := VStr "Identification" ]}, [])
           (fun _ => reverse (map_to_list (GFields identificationGroup)))).
  intros field. apply reverse_Permutation.
Defined.

(** X16. The exact content of the map written for a selected section,
    apart from its ["field"] entry: a configuration key the group maps to
    a field-name key holds the value of the last field of the section
    with that key; the title of the section stands under ["title"] unless
    such a field overrides it; every other key, and every mapped key for
    which the section has no field, is absent. *)
Theorem groupSrc_attributes (group : SectionGroup) (section : Section) (k : string) :
  k <> "field" ->
  groupSrc group section !! k =
    match
      n ← GFields group !! k;
      last (List.filter (fun field => N_ field =? n) (SFields section))
    with
    | Some field => Some (Value field)
    | None => if k =? "title" then Some (VStr (STitle section)) else None
    end.
Proof.
  intros Hk. rewrite groupSrc_decodeGroup. unfold decodeGroup.
  rewrite lookup_insert_ne by congruence. rewrite decodeAttrs_lookup.
  assert (({[ "title" := VStr (STitle section) ]} : gmap string value) !! k =
          if k =? "title" then Some (VStr (STitle section)) else None) as Hbase.
  { destruct (String.eqb_spec k "title") as [-> | Hne].
    - apply lookup_singleton_eq.
    - apply lookup_singleton_ne. congruence. }
  destruct (GFields group !! k) as [n | ]; simpl; [ | exact Hbase ].
  destruct (last _); [ reflexivity | exact Hbase ].
Qed.

Lemma groupSrc_attributes_witness :
  groupSrc identificationGroup nameSection !! "firstname" = Some (VStr "Ada") /\
  groupSrc identificationGroup nameSection !! "lastname" = None /\
  groupSrc identificationGroup nameSection !! "title" = Some (VStr "Identification").
Proof.
  split; [ | split ].
  - rewrite (groupSrc_attributes identificationGroup nameSection "firstname");
      [ vm_compute; reflexivity | discriminate ].
  - rewrite (groupSrc_attributes identificationGroup nameSection "lastname");
      [ vm_compute; reflexivity | discriminate ].
  - rewrite (groupSrc_attributes identificationGroup nameSection "title");
      [ vm_compute; reflexivity | discriminate ].
Defined.

Lemma foldl_insert_lookup (ws : list (string * value)) (m : gmap string value) (k : string) :
  foldl (fun m kv => <[fst kv := snd kv]> m) m ws !! k =
    match last (List.filter (fun kv : string * value => fst kv =? k) ws) with
    | Some kv => Some (snd kv)
    | None => m !! k
    end.
Proof.
  revert m. induction ws as [ | [k' v] ws IH]; intros m; cbn [foldl List.filter fst snd].
  - reflexivity.
  - rewrite IH. destruct (String.eqb_spec k' k) as [-> | Hne].
    + rewrite last_cons. destruct (last _); [ reflexivity | apply lookup_insert_eq ].
    + destruct (last _); [ reflexivity | now apply lookup_insert_ne ].
Qed.

Lemma filter_filter_comm {X : Type} (p q : X -> bool) (l : list X) :
  List.filter p (List.filter q l) = List.filter q (List.filter p l).
Proof.
  induction l as [ | x l IH]; simpl; [ reflexivity | ].
  destruct (p x) eqn:Hp, (q x) eqn:Hq; simpl; rewrite ?Hp, ?Hq, IH; reflexivity.
Qed.

Lemma unique_group_name (groups : list SectionGroup) (group : SectionGroup) :
  NoDup (map GName groups) -> In group groups ->
  List.filter (fun g => GName g =? GName group) groups = [group].
Proof.
  induction groups as [ | g groups IH]; intros Hnd Hin; [ destruct Hin | ].
  simpl in Hnd. apply NoDup_cons in Hnd as [Hnotin Hnd]. simpl.
  assert (forall g' : SectionGroup,
             In g' groups -> GName g' <> GName g) as Hother.
  { intros g' Hg' Heq. apply Hnotin. rewrite <- Heq.
    apply list_elem_of_In. now apply in_map. }
  destruct Hin as [-> | Hin].
  - rewrite String.eqb_refl. f_equal.
    clear IH Hnd Hnotin. induction groups as [ | g' groups IH]; simpl; [ reflexivity | ].
    destruct (String.eqb_spec (GName g') (GName group)) as [Heq | _].
    + exfalso. apply (Hother g'); [ now left | exact Heq ].
    + apply IH. intros g'' Hg''. apply Hother. now right.
  - destruct (String.eqb_spec (GName g) (GName group)) as [Heq | _].
    + exfalso. apply (Hother group Hin). now symmetry.
    + now apply IH.
Qed.

(** The writes of a decode under one group's name: one per section the
    group selects, in input order. *)
Lemma decodeWrites_of_group (sections : list Section) (groups : list SectionGroup)
  (group : SectionGroup) :
  NoDup (map GName groups) -> ~ In "section" (map GName groups) -> In group groups ->
  List.filter (fun kv : string * value => fst kv =? GName group)
              (decodeWrites sections groups) =
    map (fun section => (GName group, VList [VMap (decodeGroup group section)]))
        (List.filter (fun section => selects section group) sections).
Proof.
  intros Hnd Hsec Hin. unfold decodeWrites. rewrite List.filter_app.
  cbn [List.filter fst].
  destruct (String.eqb_spec "section" (GName group)) as [Heq | _].
  { exfalso. apply Hsec. rewrite Heq. now apply in_map. }
  rewrite app_nil_r.
  induction sections as [ | section sections IH]; simpl; [ reflexivity | ].
  rewrite List.filter_app, IH. clear IH.
  assert (List.filter (fun kv : string * value => fst kv =? GName group)
            (map (fun g => (GName g, VList [VMap (decodeGroup g section)]))
                 (List.filter (selects section) groups)) =
          if selects section group
          then [(GName group, VList [VMap (decodeGroup group section)])] else []) as ->.
  { transitivity
      (map (fun g => (GName g, VList [VMap (decodeGroup g section)]))
           (List.filter (selects section)
              (List.filter (fun g => GName g =? GName group) groups))).
    - rewrite filter_filter_comm.
      generalize (List.filter (selects section) groups). intros l.
      induction l as [ | g l IHl]; simpl; [ reflexivity | ].
      destruct (GName g =? GName group); simpl; now rewrite IHl.
    - rewrite (unique_group_name groups group Hnd Hin). simpl.
      now destruct (selects section group). }
  now destruct (selects section group).
Qed.

(** X17. When a vault item has several sections one group selects, the
    last of them is the one the group's attribute ends up with; a group no
    section selects leaves its attribute as it was.  (Group names
    pairwise distinct and different from ["section"], writes accepted.) *)
Theorem decode_last_section_wins `{Framework} (sections : list Section)
  (d : ResourceData) (groups : list SectionGroup) (group : SectionGroup) :
  (forall (k : string) (v : value), schemaCheck k v = None) ->
  NoDup (map GName groups) ->
  ~ In "section" (map GName groups) ->
  In group groups ->
  exists d' : ResourceData,
    parseSectionFromSchema sections d groups = (None, d') /\
    attrs d' !! GName group =
      match last (List.filter (fun section => selects section group) sections) with
      | Some section => Some (VList [VMap (groupSrc group section)])
      | None => attrs d !! GName group
      end.
Proof.
  intros Hacc Hnd Hsec Hin.
  rewrite parseSectionFromSchema_writes, runWrites_accepted by exact Hacc.
  eexists. split; [ reflexivity | ]. cbn [attrs].
  rewrite foldl_insert_lookup, (decodeWrites_of_group sections groups group Hnd Hsec Hin).
  generalize (List.filter (fun section => selects section group) sections). intros l.
  induction l as [ | s l IH] using rev_ind; [ reflexivity | ].
  rewrite map_app. simpl. rewrite !last_snoc. simpl.
  now rewrite groupSrc_decodeGroup.
Qed.

Lemma decode_last_section_wins_witness :
  let later :=
    {| SName := "name"; STitle := "Later";
       SFields := [ plainField "string" "firstname" (VStr "Augusta") "firstname" ] |} in
  exists d' : ResourceData,
    @parseSectionFromSchema plainFramework [nameSection; later] emptyData identityGroups
      = (None, d') /\
    attrs d' !! "identification" = Some (VList [VMap (groupSrc identificationGroup later)]).
Proof.
  intros later.
  destruct (@decode_last_section_wins plainFramework [nameSection; later] emptyData
              identityGroups identificationGroup)
    as (d' & Hparse & Hattr).
  - intros k v. reflexivity.
  - apply (bool_decide_unpack _). vm_compute. exact I.
  - simpl. intros Hin. in_cases Hin; discriminate.
  - simpl. tauto.
  - exists d'. split; [ exact Hparse | exact Hattr ].
Defined.

Lemma runWrites_refused `{Framework} (ws : list (string * value))
  (d d' : ResourceData) (e : error) :
  runWrites ws d = (Some e, d') ->
  exists (pre : list (string * value)) (k : string) (v : value)
         (post : list (string * value)),
    ws = (pre ++ (k, v) :: post)%list /\
    schemaCheck k v = Some e /\
    d' = {| Id := Id d;
            attrs := foldl (fun m kv => <[fst kv := snd kv]> m) (attrs d) pre |}.
Proof.
  revert d. induction ws as [ | [k v] ws IH]; intros d; simpl; [ discriminate | ].
  unfold d_Set. destruct (schemaCheck k v) as [e' | ] eqn:Hkv.
  - intros [= <- <-]. exists [], k, v, ws. simpl. now destruct d.
  - intros Hrun. apply IH in Hrun as (pre & k' & v' & post & -> & Hk' & ->).
    exists ((k, v) :: pre), k', v', post. simpl. auto.
Qed.

Lemma snoc_split {X : Type} (l1 l2 l3 : list X) (x y : X) :
  (l1 ++ x :: l2 = l3 ++ [y])%list ->
  (l1 = l3 /\ l2 = []) \/ exists l2' : list X, l3 = (l1 ++ x :: l2')%list.
Proof.
  destruct l2 as [ | z l2] using rev_ind.
  - intros Heq. apply app_inj_tail in Heq as [-> _]. now left.
  - intros Heq. clear IHl2. right. exists l2.
    change (l1 ++ x :: l2 ++ [z])%list with (l1 ++ (x :: l2) ++ [z])%list in Heq.
    rewrite app_assoc in Heq. now apply app_inj_tail in Heq as [<- _].
Qed.

(** X18. A write the schema refuses ends the decode: its error is
    returned, the writes before it have been made and none after it; in
    particular the leftover sections are not written, so ["section"]
    keeps its old value (no group being called ["section"]). *)
Theorem decode_stops_at_refusal `{Framework} (sections : list Section)
  (d d' : ResourceData) (groups : list SectionGroup) (e : error) :
  parseSectionFromSchema sections d groups = (Some e, d') ->
  exists (pre : list (string * value)) (k : string) (v : value)
         (post : list (string * value)),
    decodeWrites sections groups = (pre ++ (k, v) :: post)%list /\
    schemaCheck k v = Some e /\
    Id d' = Id d /\
    attrs d' = foldl (fun m kv => <[fst kv := snd kv]> m) (attrs d) pre /\
    (~ In "section" (map GName groups) -> attrs d' !! "section" = attrs d !! "section").
Proof.
  rewrite parseSectionFromSchema_writes. intros Hrun.
  apply runWrites_refused in Hrun as (pre & k & v & post & Hws & Hk & ->).
  exists pre, k, v, post. repeat split; try assumption.
  intros Hsec. simpl. apply writes_preserve. intros Hin. apply Hsec.
  unfold decodeWrites in Hws.
  match type of Hws with
  | (?flat ++ [?s])%list = _ =>
      assert (forall k' : string, In k' (map fst flat) -> In k' (map GName groups)) as Hflat
  end.
  { intros k' Hk'. apply in_map_iff in Hk' as ([k'' v'] & <- & Hk').
    apply in_flat_map in Hk' as (section & _ & Hk').
    apply in_map_iff in Hk' as (group & [= <- _] & Hg).
    apply filter_In in Hg as [Hg _]. simpl. now apply in_map. }
  symmetry in Hws. apply snoc_split in Hws as [[Heq _] | [post' Heq]].
  - apply Hflat. now rewrite <- Heq.
  - apply Hflat. rewrite Heq, map_app. apply in_or_app. now left.
Qed.

Lemma decode_stops_at_refusal_witness :
  exists (e : error) (d' : ResourceData),
    @parseSectionFromSchema noAddressFramework [nameSection; addressSection; looseSection]
       emptyData identityGroups = (Some e, d') /\
    attrs d' !! "identification" <> None /\
    attrs d' !! "section" = None.
Proof.
  destruct (@parseSectionFromSchema noAddressFramework
              [nameSection; addressSection; looseSection] emptyData identityGroups)
    as [[e | ] d'] eqn:Hparse; [ | vm_compute in Hparse; discriminate Hparse ].
  exists e, d'. split; [ reflexivity | ].
  destruct (@decode_stops_at_refusal noAddressFramework _ _ _ _ _ Hparse)
    as (pre & k & v & post & Hws & Hk & _ & Hattrs & Hsection).
  split.
  - assert (d' = snd (@parseSectionFromSchema noAddressFramework
                        [nameSection; addressSection; looseSection] emptyData
                        identityGroups)) as -> by now rewrite Hparse.
    vm_compute. discriminate.
  - rewrite Hsection; [ reflexivity | ].
    simpl. intros Hin. in_cases Hin; discriminate.
Defined.

(** X19. When no group selects any of the sections (no groups at all, or
    no sections at all, among others) the decode makes a single write:
    every section, rendered generically in input order, under
    ["section"]; an empty list of sections therefore sets ["section"] to
    the empty list. *)
Theorem decode_without_selection `{Framework} (sections : list Section)
  (d : ResourceData) (groups : list SectionGroup) :
  Forall (fun section => existsb (selects section) groups = false) sections ->
  parseSectionFromSchema sections d groups =
    d_Set d "section"
      (VList (map (fun section =>
                     VMap (<["field" := VMaps (ProcessField (SFields section))]>
                             {[ "name" := VStr (STitle section) ]}))
                  sections)).
Proof.
  intros Hall. rewrite parseSectionFromSchema_writes. unfold decodeWrites.
  assert (flat_map (fun section =>
                      map (fun group =>
                             (GName group, VList [VMap (decodeGroup group section)]))
                          (List.filter (selects section) groups)) sections = []) as ->.
  { induction Hall as [ | section sections Hs _ IH]; simpl; [ reflexivity | ].
    rewrite IH, app_nil_r.
    assert (List.filter (selects section) groups = []) as ->; [ | reflexivity ].
    clear IH. induction groups as [ | g groups IHg]; simpl; [ reflexivity | ].
    simpl in Hs. apply orb_false_iff in Hs as [Hg Hs]. rewrite Hg. now apply IHg. }
  assert (List.filter (fun section => negb (existsb (selects section) groups)) sections
          = sections) as ->.
  { induction Hall as [ | section sections Hs _ IH]; simpl; [ reflexivity | ].
    rewrite Hs. simpl. now rewrite IH. }
  simpl. unfold VMaps. rewrite map_map.
  replace (map (fun section => VMap (renderSection section)) sections)
    with (map (fun section =>
                 VMap (<["field" := VMaps (ProcessField (SFields section))]>
                         {[ "name" := VStr (STitle section) ]})) sections).
  - now destruct (d_Set d "section" _) as [[err | ] d'].
  - apply map_ext. intros s. unfold renderSection. now rewrite ProcessField_map.
Qed.

Lemma decode_without_selection_witness :
  @parseSectionFromSchema plainFramework [] emptyData identityGroups =
    (None, {| Id := "u1"; attrs := {[ "section" := VList [] ]} |}).
Proof.
  rewrite (@decode_without_selection plainFramework [] emptyData identityGroups).
  - reflexivity.
  - constructor.
Defined.

(* ===================================================================== *)
(** ** The identity round trip, all groups                                *)
(* ===================================================================== *)

Lemma asString_Some (m : gmap string value) (k s : string) :
  asString m k = Some s -> m !! k = Some (VStr s).
Proof.
  unfold asString. destruct (m !! k) as [[ | s' | | | | ] | ]; try discriminate.
  now intros [= ->].
Qed.

Lemma asInt_Some (m : gmap string value) (k : string) (z : Z) :
  asInt m k = Some z -> m !! k = Some (VInt z).
Proof.
  unfold asInt. destruct (m !! k) as [[ | | z' | | | ] | ]; try discriminate.
  now intros [= ->].
Qed.

Lemma asMap_Some (m : gmap string value) (k : string) (a : gmap string value) :
  asMap m k = Some a -> m !! k = Some (VMap a).
Proof.
  unfold asMap. destruct (m !! k) as [[ | | | | | a'] | ]; try discriminate.
  now intros [= ->].
Qed.

(** A well-known field followed by freeform fields that carry none of
    the group's field-name keys decodes to its value. *)
Lemma known_field_decoded (group : SectionGroup) (name title : string)
  (known extras : list SectionField) (k n : string) (field : SectionField) (v : value) :
  Forall (fun f => isKnown group f = false) extras ->
  k <> "field" ->
  GFields group !! k = Some n ->
  last (List.filter (fun f => N_ f =? n) known) = Some field ->
  Value field = v ->
  decodeGroup group {| SName := name; STitle := title; SFields := (known ++ extras)%list |}
    !! k = Some v.
Proof.
  intros Hunknown Hk Hn Hlast <-. unfold decodeGroup. cbn [SFields STitle].
  rewrite lookup_insert_ne by congruence.
  rewrite decodeAttrs_lookup, Hn, List.filter_app.
  rewrite (unknown_fields_unmatched group extras k n Hunknown Hn), app_nil_r, Hlast.
  reflexivity.
Qed.

Lemma title_decoded (group : SectionGroup) (section : Section) :
  GFields group !! "title" = None ->
  decodeGroup group section !! "title" = Some (VStr (STitle section)).
Proof.
  intros Hnone. unfold decodeGroup. rewrite lookup_insert_ne by discriminate.
  rewrite decodeAttrs_lookup, Hnone. apply lookup_singleton_eq.
Qed.

Lemma leftover_after_known (group : SectionGroup) (name title : string)
  (known extras : list SectionField) :
  Forall (fun f => isKnown group f = true) known ->
  Forall (fun f => isKnown group f = false) extras ->
  leftoverFields group {| SName := name; STitle := title; SFields := (known ++ extras)%list |}
    = extras.
Proof.
  intros Hknown Hextras. unfold leftoverFields. cbn [SFields]. rewrite List.filter_app.
  assert (List.filter (fun f => negb (isKnown group f)) known = []) as ->.
  { induction Hknown as [ | f known Hf _ IH]; simpl; [ reflexivity | ]. now rewrite Hf. }
  simpl. induction Hextras as [ | f extras Hf _ IH]; simpl; [ reflexivity | ].
  rewrite Hf. simpl. now rewrite IH.
Qed.

Lemma unselected_no_writes (sections : list Section) (groups : list SectionGroup) :
  Forall (fun section => existsb (selects section) groups = false) sections ->
  flat_map (fun section =>
              map (fun group => (GName group, VList [VMap (decodeGroup group section)]))
                  (List.filter (selects section) groups)) sections = [] /\
  List.filter (fun section => negb (existsb (selects section) groups)) sections = sections.
Proof.
  intros Hall. induction Hall as [ | section sections Hs _ [IH1 IH2]]; simpl; [ tauto | ].
  rewrite IH1, app_nil_r, Hs. simpl. rewrite IH2. split; [ | reflexivity ].
  clear IH1 IH2. induction groups as [ | g groups IHg]; simpl; [ reflexivity | ].
  simpl in Hs. apply orb_false_iff in Hs as [Hg Hs]. rewrite Hg. now apply IHg.
Qed.

(** Peel the type assertions off a successful [identityItem], leaving the
    lists of fields as they are written. *)
Ltac peel_item H :=
  repeat match type of H with
         | context [d_GetString ?d ?k] =>
             destruct (d_GetString d k) eqn:?; cbn [mbind option_bind] in H;
             [ | discriminate H ]
         | context [asString ?m ?k] =>
             destruct (asString m k) eqn:?; cbn [mbind option_bind] in H;
             [ | discriminate H ]
         | context [asInt ?m ?k] =>
             destruct (asInt m k) eqn:?; cbn [mbind option_bind] in H;
             [ | discriminate H ]
         | context [asMap ?m ?k] =>
             destruct (asMap m k) eqn:?; cbn [mbind option_bind] in H;
             [ | discriminate H ]
         end.

(** Write the fields of a section literal as its well-known fields
    followed by [tail]. *)
Ltac prefix_of l tail :=
  match l with
  | tail => constr:(@nil SectionField)
  | ?x :: ?l' => let p := prefix_of l' tail in constr:(x :: p)
  end.

Ltac split_fields tail :=
  match goal with
  | |- context [ {| SName := ?n; STitle := ?t; SFields := ?l |} ] =>
      let p := prefix_of l tail in
      change {| SName := n; STitle := t; SFields := l |}
        with {| SName := n; STitle := t; SFields := (p ++ tail)%list |}
  end.

(** A configuration value read back: the attribute of the decoded group
    map is the attribute of the configured group. *)
Ltac read_back Hunknown :=
  match goal with
  | Hs : asString ?m ?k = Some _ |- _ !! ?k = ?m !! ?k => rewrite (asString_Some _ _ _ Hs)
  | Hs : asInt ?m ?k = Some _ |- _ !! ?k = ?m !! ?k => rewrite (asInt_Some _ _ _ Hs)
  | Hs : asMap ?m ?k = Some _ |- _ !! ?k = ?m !! ?k => rewrite (asMap_Some _ _ _ Hs)
  end;
  first
    [ apply title_decoded; vm_compute; reflexivity
    | eapply known_field_decoded;
      [ exact Hunknown | discriminate | vm_compute; reflexivity
      | reflexivity | reflexivity ] ].

(** X20. The whole identity round trip: decoding the sections that
    [resourceItemIdentityCreate] builds gives, for each of the three
    groups, the configured group back: its title and every well-known
    attribute (ten, six and three keys) hold the configured values, the
    freeform fields come back as the group's ["field"] list in their
    order, and the generic sections come back under ["section"].
    (Writes accepted; no freeform field carries a field-name key of its
    group; no generic section is named like a group's selector.) *)
Theorem identity_full_round_trip `{Framework} (d d0 : ResourceData) (item : Item)
  (main address internet : gmap string value) :
  (forall (k : string) (v : value), schemaCheck k v = None) ->
  identityItem d = Some item ->
  d_GetGroup d "identification" = Some main ->
  d_GetGroup d "address" = Some address ->
  d_GetGroup d "internet" = Some internet ->
  Forall (fun field => isKnown identificationGroup field = false) (ParseFields main) ->
  Forall (fun field => isKnown addressGroup field = false) (ParseFields address) ->
  Forall (fun field => isKnown internetGroup field = false) (ParseFields internet) ->
  Forall (fun section => existsb (selects section) identityGroups = false)
         (ParseSections d) ->
  exists (d' : ResourceData) (src1 src2 src3 : gmap string value),
    parseSectionFromSchema (Sections (Details_ item)) d0 identityGroups = (None, d') /\
    attrs d' !! "identification" = Some (VList [VMap src1]) /\
    attrs d' !! "address" = Some (VList [VMap src2]) /\
    attrs d' !! "internet" = Some (VList [VMap src3]) /\
    attrs d' !! "section" = Some (VMaps (ProcessSections (ParseSections d))) /\
    (forall k : string,
        In k ["title"; "firstname"; "initial"; "lastname"; "sex"; "birth_date";
              "occupation"; "company"; "department"; "job_title"] ->
        src1 !! k = main !! k) /\
    src1 !! "field" = Some (VMaps (ProcessField (ParseFields main))) /\
    (forall k : string,
        In k ["title"; "address"; "default_phone"; "home_phone"; "cell_phone";
              "business_phone"] ->
        src2 !! k = address !! k) /\
    src2 !! "field" = Some (VMaps (ProcessField (ParseFields address))) /\
    (forall k : string,
        In k ["title"; "username"; "email"] -> src3 !! k = internet !! k) /\
    src3 !! "field" = Some (VMaps (ProcessField (ParseFields internet))).
Proof.
  intros Hacc Hitem Hmain Haddress Hinternet Hun1 Hun2 Hun3 Hforeign.
  unfold identityItem in Hitem. rewrite Hmain, Haddress, Hinternet in Hitem.
  cbn [mbind option_bind] in Hitem.
  peel_item Hitem.
  injection Hitem as <-. cbn [Sections Details_].
  rewrite parseSectionFromSchema_writes, runWrites_accepted by exact Hacc.
  split_fields (ParseFields main).
  split_fields (ParseFields address).
  split_fields (ParseFields internet).
  match goal with
  | |- context [decodeWrites (?s1 :: ?s2 :: ?s3 :: _) _] =>
      set (sec1 := s1); set (sec2 := s2); set (sec3 := s3)
  end.
  assert (decodeWrites (sec1 :: sec2 :: sec3 :: ParseSections d) identityGroups =
            ("identification", VList [VMap (decodeGroup identificationGroup sec1)])
            :: ("address", VList [VMap (decodeGroup addressGroup sec2)])
            :: ("internet", VList [VMap (decodeGroup internetGroup sec3)])
            :: (flat_map
                  (fun section =>
                     map (fun group =>
                            (GName group, VList [VMap (decodeGroup group section)]))
                         (List.filter (selects section) identityGroups))
                  (ParseSections d)
                ++ [("section",
                     VMaps (map renderSection
                              (List.filter
                                 (fun section =>
                                    negb (existsb (selects section) identityGroups))
                                 (ParseSections d))))])%list) as -> by reflexivity.
  destruct (unselected_no_writes (ParseSections d) identityGroups Hforeign) as [-> ->].
  cbn [app foldl fst snd].
  eexists.
  exists (decodeGroup identificationGroup sec1), (decodeGroup addressGroup sec2),
         (decodeGroup internetGroup sec3).
  split; [ reflexivity | ]. cbn [attrs].
  split; [ rewrite !lookup_insert_ne by discriminate; apply lookup_insert_eq | ].
  split; [ rewrite !lookup_insert_ne by discriminate; apply lookup_insert_eq | ].
  split; [ rewrite !lookup_insert_ne by discriminate; apply lookup_insert_eq | ].
  split; [ rewrite ProcessSections_map; apply lookup_insert_eq | ].
  assert (forall (group : SectionGroup) (name title : string)
                 (known extras : list SectionField),
             Forall (fun f => isKnown group f = true) known ->
             Forall (fun f => isKnown group f = false) extras ->
             decodeGroup group
               {| SName := name; STitle := title; SFields := (known ++ extras)%list |}
               !! "field" = Some (VMaps (ProcessField extras))) as Hfield.
  { intros group name title known extras Hk He. unfold decodeGroup.
    rewrite lookup_insert_eq, (leftover_after_known group name title known extras Hk He).
    now rewrite ProcessField_map. }
  split; [ intros k Hk; simpl in Hk; in_cases Hk; read_back Hun1 | ].
  split; [ apply Hfield;
           [ repeat (constructor; [ vm_compute; reflexivity | ]); constructor
           | exact Hun1 ] | ].
  split; [ intros k Hk; simpl in Hk; in_cases Hk; read_back Hun2 | ].
  split; [ apply Hfield;
           [ repeat (constructor; [ vm_compute; reflexivity | ]); constructor
           | exact Hun2 ] | ].
  split; [ intros k Hk; simpl in Hk; in_cases Hk; read_back Hun3 | ].
  apply Hfield;
    [ repeat (constructor; [ vm_compute; reflexivity | ]); constructor | exact Hun3 ].
Qed.

Lemma identity_full_round_trip_witness :
  exists (item : Item) (d' : ResourceData) (src1 src2 src3 : gmap string value),
    @identityItem plainFramework adaData = Some item /\
    @parseSectionFromSchema plainFramework (Sections (Details_ item)) emptyData
       identityGroups = (None, d') /\
    attrs d' !! "identification" = Some (VList [VMap src1]) /\
    attrs d' !! "address" = Some (VList [VMap src2]) /\
    attrs d' !! "internet" = Some (VList [VMap src3]) /\
    src1 !! "birth_date" = Some (VInt 0) /\
    src1 !! "title" = Some (VStr "Identification") /\
    src2 !! "address" = Some (VMap ∅) /\
    src3 !! "email" = Some (VStr "").
Proof.
  destruct (@identityItem plainFramework adaData) as [item | ] eqn:Hitem;
    [ | vm_compute in Hitem; discriminate Hitem ].
  exists item.
  destruct (@identity_full_round_trip plainFramework adaData emptyData item adaMain
              (list_to_map
                 [ ("title", VStr "Address"); ("address", VMap ∅);
                   ("default_phone", VStr ""); ("home_phone", VStr "");
                   ("cell_phone", VStr ""); ("business_phone", VStr "") ])
              (list_to_map
                 [ ("title", VStr "Internet Details"); ("username", VStr "");
                   ("email", VStr "") ]))
    as (d' & src1 & src2 & src3 & Hparse & H1 & H2 & H3 & _ & Hmain & _ & Haddr & _
        & Hinet & _).
  - intros k v. reflexivity.
  - exact Hitem.
  - vm_compute. reflexivity.
  - vm_compute. reflexivity.
  - vm_compute. reflexivity.
  - replace (@ParseFields plainFramework adaMain) with [nicknameField]
      by (vm_compute; reflexivity).
    constructor; [ vm_compute; reflexivity | constructor ].
  - constructor.
  - constructor.
  - constructor.
  - exists d', src1, src2, src3.
    split; [ reflexivity | ]. split; [ exact Hparse | ].
    split; [ exact H1 | ]. split; [ exact H2 | ]. split; [ exact H3 | ].
    split; [ rewrite (Hmain "birth_date") by (simpl; tauto); vm_compute; reflexivity | ].
    split; [ rewrite (Hmain "title") by (simpl; tauto); vm_compute; reflexivity | ].
    split; [ rewrite (Haddr "address") by (simpl; tauto); vm_compute; reflexivity | ].
    rewrite (Hinet "email") by (simpl; tauto). vm_compute. reflexivity.
Defined.

(* ===================================================================== *)
(** ** The create paths and the importers                                 *)
(* ===================================================================== *)

Lemma identityItem_template `{Framework} (d : ResourceData) (item : Item) :
  identityItem d = Some item ->
  Template item = "004" /\ UUID item = "".
Proof.
  intros Hitem. unfold identityItem in Hitem.
  destruct (d_GetGroup d "identification") as [main | ];
    cbn [mbind option_bind] in Hitem; [ | discriminate Hitem ].
  destruct (d_GetGroup d "address") as [address | ];
    cbn [mbind option_bind] in Hitem; [ | discriminate Hitem ].
  destruct (d_GetGroup d "internet") as [internet | ];
    cbn [mbind option_bind] in Hitem; [ | discriminate Hitem ].
  peel_item Hitem. injection Hitem as <-. split; reflexivity.
Qed.

(** X21. [resourceItemIdentityCreate] needs all three groups in the
    configuration: when [identification], [address] or [internet] is
    unset or an empty list, indexing its first element panics, before
    anything is run. *)
Theorem identity_create_needs_groups `{Framework} `{Client}
  (d : ResourceData) (w : list Invocation) (k : string) :
  In k ["identification"; "address"; "internet"] ->
  attrs d !! k = None \/ attrs d !! k = Some (VList []) ->
  resourceItemIdentityCreate d w = None.
Proof.
  intros Hk Hunset.
  assert (d_GetGroup d k = None) as Hnone
    by (unfold d_GetGroup; destruct Hunset as [-> | ->]; reflexivity).
  unfold resourceItemIdentityCreate.
  assert (identityItem d = None) as ->; [ | reflexivity ].
  unfold identityItem. simpl in Hk.
  destruct Hk as [<- | [<- | [<- | []]]].
  - now rewrite Hnone.
  - destruct (d_GetGroup d "identification"); [ | reflexivity ].
    cbn [mbind option_bind]. now rewrite Hnone.
  - destruct (d_GetGroup d "identification"); [ | reflexivity ].
    cbn [mbind option_bind].
    destruct (d_GetGroup d "address"); [ | reflexivity ].
    cbn [mbind option_bind]. now rewrite Hnone.
Qed.

Lemma identity_create_needs_groups_witness :
  @resourceItemIdentityCreate plainFramework (constClient [] None)
     {| Id := ""; attrs := delete "address" (attrs adaData) |} [] = None.
Proof.
  apply (@identity_create_needs_groups plainFramework (constClient [] None) _ [] "address").
  - simpl. tauto.
  - left. vm_compute. reflexivity.
Defined.

(** X22. The item [resourceItemIdentityCreate] builds always carries the
    Identity template, so [CreateItem] never stops at the unknown
    template: once the details serialise, the binary is run once as
    [create item Identity <details> ...]; if [CreateItem] returns an
    error, the create returns it with the record untouched and without
    reading the item back. *)
Theorem identity_create_runs `{Framework} `{Client}
  (d : ResourceData) (w : list Invocation) (item : Item) (details : list byte) :
  identityItem d = Some item ->
  json_Marshal (Details_ item) = inr details ->
  let args := CreateItem_args item IdentityCategory (base64url_Encode details) in
  firstn 4 args = ["create"; "item"; "Identity"; base64url_Encode details] /\
  snd (CreateItem item w) = (w ++ [ {| stdin := None; argv := args |} ])%list /\
  (forall (e : error) (item' : Item) (w' : list Invocation),
      CreateItem item w = ((Some e, item'), w') ->
      resourceItemIdentityCreate d w = Some ([e], d, w')).
Proof.
  intros Hitem Hm args. split; [ reflexivity | ]. split.
  - destruct (identityItem_template d item Hitem) as [Ht _].
    unfold CreateItem, RunSimpleCmd. rewrite Hm, Ht.
    change (Template2Category "004") with IdentityCategory.
    change (IdentityCategory =? UnknownCategory) with false. cbv iota.
    fold args. destruct (op w _) as [res [err | ]]; [ reflexivity | ].
    now destruct (getResultID res).
  - intros e item' w' Hcreate. unfold resourceItemIdentityCreate.
    rewrite Hitem. cbn [mbind option_bind]. now rewrite Hcreate.
Qed.

Lemma identity_create_runs_witness :
  exists (item : Item) (w' : list Invocation),
    @identityItem plainFramework adaData = Some item /\
    @resourceItemIdentityCreate plainFramework (constClient [] (Some (ExitError 1)))
       adaData [] =
      Some ([prettyError (CreateItem_args item IdentityCategory (base64url_Encode []))
               [] (ExitError 1)], adaData, w').
Proof.
  destruct (@identityItem plainFramework adaData) as [item | ] eqn:Hitem;
    [ | vm_compute in Hitem; discriminate Hitem ].
  exists item.
  destruct (@identity_create_runs plainFramework (constClient [] (Some (ExitError 1)))
              adaData [] item [] Hitem eq_refl) as (_ & Htrace & Herr).
  eexists. split; [ reflexivity | ].
  eapply Herr.
  destruct (identityItem_template adaData item Hitem) as [Ht _].
  unfold CreateItem, RunSimpleCmd. cbn [json_Marshal constClient op].
  rewrite Ht. reflexivity.
Defined.



(** X23. [resourceItemDocumentCreate] stops on an unreadable file or on
    undecodable base64 text with that error, the record untouched and
    nothing run. *)
Theorem document_create_input_errors `{Framework} `{Client} `{Host}
  (d : ResourceData) (w : list Invocation) (e : error) :
  (forall path : string,
      d_GetOk d "file_path" = Some (VStr path) ->
      ioutil_ReadFile path = inl e ->
      resourceItemDocumentCreate d w = Some ([e], d, w)) /\
  (forall contentB64 filename : string,
      d_GetOk d "file_path" = None ->
      d_GetOk d "content_base64" = Some (VStr contentB64) ->
      d_GetString d "filename" = Some filename ->
      StdEncoding_DecodeString contentB64 = inl e ->
      resourceItemDocumentCreate d w = Some ([e], d, w)).
Proof.
  split.
  - intros path Hpath Hread. unfold resourceItemDocumentCreate. now rewrite Hpath, Hread.
  - intros c filename Hpath Hc Hname Hdec. unfold resourceItemDocumentCreate.
    rewrite Hpath, Hc, Hname. cbn [mbind option_bind]. now rewrite Hdec.
Qed.

Lemma document_create_input_errors_witness :
  @resourceItemDocumentCreate plainFramework (constClient [] None) bareHost
     badBase64Data [] =
    Some ([ErrExternal "illegal base64 data"], badBase64Data, []).
Proof.
  destruct (@document_create_input_errors plainFramework (constClient [] None) bareHost
              badBase64Data [] (ErrExternal "illegal base64 data")) as [_ Hb64].
  apply (Hb64 "!!" "a.txt"); vm_compute; reflexivity.
Defined.



(** X25. An import fails exactly when the read reports diagnostics, and
    then with the text of the first one; it hands back the record as the
    read left it.  Importing an id the vault does not know is therefore
    no error: it succeeds with the id cleared. *)
Theorem import_outcome `{Framework} `{Client} `{Host}
  (d : ResourceData) (w : list Invocation) :
  (forall (ds : list ResourceData) (err : option error) (w' : list Invocation),
      resourceItemIdentity_StateContext d w = Some ((ds, err), w') ->
      exists (diags : Diagnostics) (d' : ResourceData),
        resourceItemIdentityRead d w = Some (diags, d', w') /\
        ds = [d'] /\
        err = match diags with e :: _ => Some (ErrNew (Error_ e)) | [] => None end) /\
  (forall (ds : list ResourceData) (err : option error) (w' : list Invocation),
      resourceItemDocument_StateContext d w = Some ((ds, err), w') ->
      exists (diags : Diagnostics) (d' : ResourceData),
        resourceItemDocumentRead d w = Some (diags, d', w') /\
        ds = [d'] /\
        err = match diags with e :: _ => Some (ErrNew (Error_ e)) | [] => None end) /\
  (forall (vaultID : string) (w' : list Invocation),
      d_GetString d "vault" = Some vaultID ->
      ReadItem (getID d) vaultID w = ((None, None), w') ->
      resourceItemIdentity_StateContext d w = Some (([SetId "" d], None), w') /\
      resourceItemDocument_StateContext d w = Some (([SetId "" d], None), w')).
Proof.
  unfold resourceItemIdentity_StateContext, resourceItemDocument_StateContext,
    importerStateContext.
  split; [ | split ].
  - intros ds err w'.
    destruct (resourceItemIdentityRead d w) as [[[diags d'] w1] | ]; [ | discriminate ].
    destruct diags as [ | e diags]; intros [= <- <- <-]; eexists _, _; repeat split.
  - intros ds err w'.
    destruct (resourceItemDocumentRead d w) as [[[diags d'] w1] | ]; [ | discriminate ].
    destruct diags as [ | e diags]; intros [= <- <- <-]; eexists _, _; repeat split.
  - intros vaultID w' Hvault Hread. split.
    + unfold resourceItemIdentityRead. rewrite Hvault. simpl. now rewrite Hread.
    + unfold resourceItemDocumentRead. rewrite Hvault. simpl. now rewrite Hread.
Qed.

Lemma import_outcome_witness :
  let out := list_byte_of_string "u1 isn't an item in any vault" in
  @resourceItemIdentity_StateContext plainFramework (constClient out (Some (ExitError 1)))
     bareHost emptyData [] =
    Some (([SetId "" emptyData], None),
          [ {| stdin := None; argv := ["get"; "item"; "u1"] |} ]).
Proof.
  intros out.
  destruct (@import_outcome plainFramework (constClient out (Some (ExitError 1))) bareHost
              emptyData []) as (_ & _ & Hmiss).
  apply (Hmiss ""); reflexivity.
Defined.
